(** * Usage history, starring and app visibility of the profile launcher

    A shallow embedding of [src/helpers/apps.ts] and [src/tools/history.ts].

    - JavaScript strings are Rocq [string]s read as sequences of code units
      in the range U+0000..U+00FF; [trim] and [toLowerCase] are the
      ECMAScript functions on that range. The bullet of a history line
      (U+2022) lies outside it and is kept as the bytes of its UTF-8 form;
      no function inspects it.
    - [LocalStorage] is a finite map from keys to JSON texts.
    - [JSON.stringify] and [JSON.parse] are an interface ([Json]) with the
      two laws the helpers rely on; a function that would throw returns
      [None].
    - [Date.now()] is an explicit argument [now]; timestamps are integers. *)

From Stdlib Require Import ZArith Ascii String List Sorted Permutation.
From stdpp Require Import base option list strings gmap sorting.

Local Open Scope string_scope.
Local Open Scope list_scope.
Local Open Scope Z_scope.

(** ** JavaScript strings *)

Module JsString.

(** [WhiteSpace] and [LineTerminator] code units below U+0100:
    TAB, LF, VT, FF, CR, SP and NBSP. *)
Definition isWhiteSpace (c : ascii) : bool :=
  let n := N_of_ascii c in
  ((9 <=? n) && (n <=? 13) || (n =? 32) || (n =? 160))%N.

(** Simple lower-case mapping of one code unit: A-Z, and the Latin-1
    capitals U+00C0..U+00DE without the multiplication sign U+00D7. *)
Definition lowerChar (c : ascii) : ascii :=
  let n := N_of_ascii c in
  if ((65 <=? n) && (n <=? 90)
      || (192 <=? n) && (n <=? 222) && negb (n =? 215))%N
  then ascii_of_N (n + 32) else c.

Fixpoint toLowerCase (s : string) : string :=
  match s with
  | EmptyString => EmptyString
  | String c s' => String (lowerChar c) (toLowerCase s')
  end.

Fixpoint trimStart (s : string) : string :=
  match s with
  | EmptyString => EmptyString
  | String c s' => if isWhiteSpace c then trimStart s' else s
  end.

Fixpoint trimEnd (s : string) : string :=
  match s with
  | EmptyString => EmptyString
  | String c s' =>
      match trimEnd s' with
      | EmptyString => if isWhiteSpace c then EmptyString else String c EmptyString
      | t => String c t
      end
  end.

Definition trim (s : string) : string := trimEnd (trimStart s).

(** [s.startsWith(p)] *)
Definition startsWith (s p : string) : bool := String.prefix p s.

(** [s.slice(1)] *)
Definition slice1 (s : string) : string :=
  match s with
  | EmptyString => EmptyString
  | String _ s' => s'
  end.

(** [s.includes(sub)] *)
Fixpoint includes (s sub : string) : bool :=
  String.prefix sub s
  || match s with
     | EmptyString => false
     | String _ s' => includes s' sub
     end.

(** A string is truthy when it is not empty. *)
Definition truthy (s : string) : bool :=
  match s with
  | EmptyString => false
  | String _ _ => true
  end.

Definition dquote : string := String (ascii_of_nat 34) EmptyString.
Definition newline : string := String (ascii_of_nat 10) EmptyString.

(** [lines.join(sep)] *)
Fixpoint join (sep : string) (lines : list string) : string :=
  match lines with
  | [] => EmptyString
  | [x] => x
  | x :: rest => x +:+ sep +:+ join sep rest
  end.

(** Strings made of white space only. *)
Fixpoint allWhiteSpace (s : string) : bool :=
  match s with
  | EmptyString => true
  | String c s' => isWhiteSpace c && allWhiteSpace s'
  end.

Definition startsWithWhiteSpace (s : string) : bool :=
  match s with
  | EmptyString => false
  | String c _ => isWhiteSpace c
  end.

Fixpoint endsWithWhiteSpace (s : string) : bool :=
  match s with
  | EmptyString => false
  | String c EmptyString => isWhiteSpace c
  | String _ s' => endsWithWhiteSpace s'
  end.

End JsString.

(** ** JavaScript arrays *)

Module JsArray.

(** [l.slice(0, e)] for an integer [e]: a negative [e] counts from the
    end of the array. *)
Definition slice0 {A} (l : list A) (e : Z) : list A :=
  if e <? 0
  then take (Z.to_nat (Z.max (Z.of_nat (length l) + e) 0)) l
  else take (Z.to_nat e) l.

End JsArray.

(** ** Records of [src/types] *)

Module UsageHistoryItem.
Record t := mk {
  profile : string;
  app : string;
  appName : string;
  timestamp : Z;
}.
#[global] Instance item_eq_dec : EqDecision t.
Proof. solve_decision. Defined.
#[global] Instance item_countable : Countable t.
Proof.
  apply (inj_countable'
           (λ x, (profile x, app x, appName x, timestamp x))
           (λ '(p, a, n, ts), mk p a n ts)).
  by intros [].
Defined.
End UsageHistoryItem.

Module AppSetting.
Record t := mk {
  value : string;
  visible : bool;
}.
#[global] Instance setting_eq_dec : EqDecision t.
Proof. solve_decision. Defined.
#[global] Instance setting_countable : Countable t.
Proof.
  apply (inj_countable' (λ x, (value x, visible x)) (λ '(v, b), mk v b)).
  by intros [].
Defined.
End AppSetting.

Module App.
Record t := mk {
  value : string;
  name : string;
  urlTemplate : string;
}.
#[global] Instance app_eq_dec : EqDecision t.
Proof. solve_decision. Defined.
#[global] Instance app_countable : Countable t.
Proof.
  apply (inj_countable'
           (λ x, (value x, name x, urlTemplate x))
           (λ '(v, n, u), mk v n u)).
  by intros [].
Defined.
End App.

(** ** JSON and the persistent store *)

(** [JSON.stringify] and [JSON.parse] at the type of one stored document
    (an array of records or of strings). [parse] returns [None] where
    [JSON.parse] throws or yields a value of another shape. The two laws:
    a written document reads back as itself, and its text is not empty. *)
Class Json (A : Type) := {
  stringify : A → string;
  parse : string → option A;
  parse_stringify : ∀ a, parse (stringify a) = Some a;
  stringify_truthy : ∀ a, JsString.truthy (stringify a) = true;
}.

Abbreviation LocalStorage := (gmap string string).

Module Storage.
Definition getItem (σ : LocalStorage) (key : string) : option string := σ !! key.
Definition setItem (key value : string) (σ : LocalStorage) : LocalStorage :=
  <[key := value]> σ.
End Storage.

Module STORAGE_KEYS.
Definition USAGE_HISTORY : string := "usageHistory".
Definition STARRED_HISTORY_ITEMS : string := "starredHistoryItems".
Definition APP_SETTINGS : string := "appSettings".
Definition CUSTOM_APPS : string := "customApps".
End STORAGE_KEYS.

(** [l.sort(compareFn)]: the sort is stable, and [compareFn a b > 0] puts
    [a] after [b]; the array is fresh in every use below, so sorting in
    place is sorting a copy. *)
Module JsSort.
Section sort.
Context {A : Type} (compareFn : A → A → Z).

Fixpoint insert (x : A) (l : list A) : list A :=
  match l with
  | [] => [x]
  | y :: l' => if 0 <? compareFn x y then y :: insert x l' else x :: l
  end.

Fixpoint sort (l : list A) : list A :=
  match l with
  | [] => []
  | x :: l' => insert x (sort l')
  end.
End sort.
End JsSort.

(** ** [src/helpers/apps.ts] *)

Definition normalizeApp (app : string) : string :=
  JsString.toLowerCase (JsString.trim app).

Definition normalizeProfile (profile : string) : string :=
  let trimmed := JsString.trim profile in
  JsString.toLowerCase
    (if JsString.startsWith trimmed "@" then JsString.slice1 trimmed else trimmed).

Definition getHistoryPairKey (profile app : string) : string :=
  normalizeApp app +:+ "::" +:+ normalizeProfile profile.

(** The filter of an app query, shared by [getStarredUsageHistory] and
    [getProfileHistory]:
    [item.app.toLowerCase() === appLower ||
     item.appName.toLowerCase().includes(appLower)]. *)
Definition matchesApp (appLower : string) (item : UsageHistoryItem.t) : bool :=
  bool_decide (JsString.toLowerCase (UsageHistoryItem.app item) = appLower)
  || JsString.includes (JsString.toLowerCase (UsageHistoryItem.appName item)) appLower.

(** [(a, b) => b.timestamp - a.timestamp] *)
Definition byTimestampDesc (a b : UsageHistoryItem.t) : Z :=
  UsageHistoryItem.timestamp b - UsageHistoryItem.timestamp a.

(** [!(item.profile === profile && item.app === app)] *)
Definition otherPair (profile app : string) (item : UsageHistoryItem.t) : Prop :=
  ¬ (UsageHistoryItem.profile item = profile ∧ UsageHistoryItem.app item = app).

#[global] Instance otherPair_dec profile app item : Decision (otherPair profile app item).
Proof. unfold otherPair. apply _. Defined.

(** [settingsMap.set(setting.value, setting)] for each setting in turn. *)
Definition buildSettingsMap (appSettings : list AppSetting.t) : gmap string AppSetting.t :=
  foldl (λ m setting, <[AppSetting.value setting := setting]> m) ∅ appSettings.

(** [setting ? setting.visible : true] *)
Definition isVisible (settingsMap : gmap string AppSetting.t) (app : App.t) : bool :=
  match settingsMap !! App.value app with
  | Some setting => AppSetting.visible setting
  | None => true
  end.

Section Helpers.
Context `{!Json (list UsageHistoryItem.t), !Json (list string),
          !Json (list AppSetting.t), !Json (list App.t)}.

(** [src/utils/default-apps] is a constant table of apps. *)
Variable defaultApps : list App.t.

Definition setStarredHistoryPairs (pairs : list string) (σ : LocalStorage) : LocalStorage :=
  Storage.setItem STORAGE_KEYS.STARRED_HISTORY_ITEMS (stringify pairs) σ.

Definition getStarredHistoryPairs (σ : LocalStorage) : option (list string) :=
  match Storage.getItem σ STORAGE_KEYS.STARRED_HISTORY_ITEMS with
  | Some starredJson => if JsString.truthy starredJson then parse starredJson else Some []
  | None => Some []
  end.

Definition isHistoryItemStarred (profile app : string) (σ : LocalStorage) : option bool :=
  starredPairs ← getStarredHistoryPairs σ;
  let key := getHistoryPairKey profile app in
  Some (bool_decide (key ∈ starredPairs)).

Definition toggleStarredHistoryItem (profile app : string) (σ : LocalStorage)
  : option (bool * LocalStorage) :=
  starredPairs ← getStarredHistoryPairs σ;
  let key := getHistoryPairKey profile app in
  if bool_decide (key ∈ starredPairs) then
    let filtered := filter (λ pair, pair ≠ key) starredPairs in
    Some (false, setStarredHistoryPairs filtered σ)
  else
    Some (true, setStarredHistoryPairs (starredPairs ++ [key])%list σ).

Definition clearStarredHistoryItems (σ : LocalStorage) : LocalStorage :=
  setStarredHistoryPairs [] σ.

Definition getCustomApps (σ : LocalStorage) : option (list App.t) :=
  match Storage.getItem σ STORAGE_KEYS.CUSTOM_APPS with
  | Some customAppsJson => if JsString.truthy customAppsJson then parse customAppsJson else Some []
  | None => Some []
  end.

Definition getUsageHistory (σ : LocalStorage) : option (list UsageHistoryItem.t) :=
  match Storage.getItem σ STORAGE_KEYS.USAGE_HISTORY with
  | Some historyJson => if JsString.truthy historyJson then parse historyJson else Some []
  | None => Some []
  end.

Definition getAppSettings (σ : LocalStorage) : option (list AppSetting.t) :=
  match Storage.getItem σ STORAGE_KEYS.APP_SETTINGS with
  | Some settingsJson => if JsString.truthy settingsJson then parse settingsJson else Some []
  | None => Some []
  end.

Definition getStarredUsageHistory (app : option string) (limit : option Z)
    (σ : LocalStorage) : option (list UsageHistoryItem.t) :=
  usageHistory ← getUsageHistory σ;
  starredPairs ← getStarredHistoryPairs σ;
  let starredSet : gset string := list_to_set starredPairs in
  let filtered :=
    filter (λ item, getHistoryPairKey (UsageHistoryItem.profile item)
                                      (UsageHistoryItem.app item) ∈ starredSet)
           usageHistory in
  let filtered :=
    match app with
    | Some app =>
        if JsString.truthy app then
          let appLower := JsString.toLowerCase app in
          filter (λ item, matchesApp appLower item) filtered
        else filtered
    | None => filtered
    end in
  let sorted := JsSort.sort byTimestampDesc filtered in
  Some (match limit with
        | Some limit => JsArray.slice0 sorted limit
        | None => sorted
        end).

Definition getAllApps (σ : LocalStorage) : option (list App.t) :=
  customApps ← getCustomApps σ;
  appSettings ← getAppSettings σ;
  let settingsMap := buildSettingsMap appSettings in
  let allApps := (defaultApps ++ customApps)%list in
  Some (filter (λ app, isVisible settingsMap app) allApps).

Definition getAllAppsUnfiltered (σ : LocalStorage) : option (list App.t) :=
  customApps ← getCustomApps σ;
  Some (defaultApps ++ customApps)%list.

Definition addToUsageHistory (now : Z) (profile app appName : string)
    (σ : LocalStorage) : option LocalStorage :=
  history ← getUsageHistory σ;
  let filtered := filter (otherPair profile app) history in
  let newItem := UsageHistoryItem.mk profile app appName now in
  let updated := JsArray.slice0 (newItem :: filtered) 20 in
  Some (Storage.setItem STORAGE_KEYS.USAGE_HISTORY (stringify updated) σ).

Definition removeUsageHistoryItem (profile app : string) (σ : LocalStorage)
  : option LocalStorage :=
  history ← getUsageHistory σ;
  let filtered := filter (otherPair profile app) history in
  Some (Storage.setItem STORAGE_KEYS.USAGE_HISTORY (stringify filtered) σ).

(** [now] is the reading of [Date.now()] during the call. *)
Definition updateUsageHistoryItem (now : Z) (oldProfile oldApp newProfile : string)
    (σ : LocalStorage) : option LocalStorage :=
  history ← getUsageHistory σ;
  let updated :=
    map (λ item,
           if decide (UsageHistoryItem.profile item = oldProfile
                      ∧ UsageHistoryItem.app item = oldApp)
           then UsageHistoryItem.mk newProfile (UsageHistoryItem.app item)
                  (UsageHistoryItem.appName item) now
           else item)
        history in
  Some (Storage.setItem STORAGE_KEYS.USAGE_HISTORY (stringify updated) σ).

Definition updateAppSettings (settings : list AppSetting.t) (σ : LocalStorage) : LocalStorage :=
  Storage.setItem STORAGE_KEYS.APP_SETTINGS (stringify settings) σ.

Definition addCustomApp (app : App.t) (σ : LocalStorage) : option LocalStorage :=
  customApps ← getCustomApps σ;
  let updated := customApps ++ [app] in
  Some (Storage.setItem STORAGE_KEYS.CUSTOM_APPS (stringify updated) σ).

Definition removeCustomApp (value : string) (σ : LocalStorage) : option LocalStorage :=
  customApps ← getCustomApps σ;
  let updated := filter (λ p, App.value p ≠ value) customApps in
  Some (Storage.setItem STORAGE_KEYS.CUSTOM_APPS (stringify updated) σ).

End Helpers.

(** ** [src/tools/history.ts] *)

Inductive Action := action_list | action_star | action_unstar | action_list_starred.

#[global] Instance Action_eq_dec : EqDecision Action.
Proof. solve_decision. Defined.

Module HistoryToolArgs.
Record t := mk {
  action : option Action;
  profile : option string;
  app : option string;
  limit : option Z;
}.
End HistoryToolArgs.

(** Truthiness of an optional string argument: [undefined] and the empty
    string are falsy. *)
Definition truthyArg (arg : option string) : bool :=
  match arg with
  | Some s => JsString.truthy s
  | None => false
  end.

(** Modelled from the spec: [safeAsyncOperation] of [src/utils/errors] is
    not among the sources; the spec describes failure handling as an
    error-to-fallback-string mapping, so a throwing operation yields the
    fallback value. *)
Definition safeAsyncOperation {A} (operation : option A) (fallbackValue : A) : A :=
  default fallbackValue operation.

Definition fallbackMessage : string :=
  "Unable to retrieve profile history at this time.".

Section Tool.
Context `{!Json (list UsageHistoryItem.t), !Json (list string),
          !Json (list AppSetting.t), !Json (list App.t)}.

Variable defaultApps : list App.t.

(** [getAppByValue] of [src/helpers/custom-app-utils] looks an app up by
    its value; it reads the store and may throw. *)
Variable getAppByValue : LocalStorage → string → option (option App.t).

(** [formatRelativeDate] of [src/utils/date]. *)
Variable formatRelativeDate : Z → string.

Definition resolveAppValue (inputApp : string) (σ : LocalStorage)
  : option (option (string * string)) :=
  allApps ← getAllApps defaultApps σ;
  let normalizedInput := JsString.toLowerCase (JsString.trim inputApp) in
  let match_ :=
    List.find (λ item,
                 bool_decide (JsString.toLowerCase (App.value item) = normalizedInput)
                 || bool_decide (JsString.toLowerCase (App.name item) = normalizedInput))
              allApps in
  Some (match match_ with
        | Some m => Some (App.value m, App.name m)
        | None => None
        end).

Definition formatHistoryLine (σ : LocalStorage) (item : UsageHistoryItem.t)
  : option string :=
  appInfo ← getAppByValue σ (UsageHistoryItem.app item);
  let appName :=
    match appInfo with
    | Some info =>
        if JsString.truthy (App.name info) then App.name info
        else UsageHistoryItem.appName item
    | None => UsageHistoryItem.appName item
    end in
  let timeAgo := formatRelativeDate (UsageHistoryItem.timestamp item) in
  Some ("• " +:+ UsageHistoryItem.profile item +:+ " on " +:+ appName
        +:+ " (" +:+ timeAgo +:+ ")").

Definition formatHistoryLines (items : list UsageHistoryItem.t) (σ : LocalStorage)
  : option (list string) :=
  mapM (formatHistoryLine σ) items.

(** The operation passed to [safeAsyncOperation]: the message and the
    store it leaves. Every write is the last step of its path, so an
    operation that throws has left the store as it found it. *)
Definition getProfileHistory_operation (args : HistoryToolArgs.t) (σ : LocalStorage)
  : option (string * LocalStorage) :=
  let action := default action_list (HistoryToolArgs.action args) in
  let profile := HistoryToolArgs.profile args in
  let app := HistoryToolArgs.app args in
  let limit := default 10 (HistoryToolArgs.limit args) in
  if bool_decide (action = action_star ∨ action = action_unstar) then
    match profile, app with
    | Some profile, Some app =>
        if negb (JsString.truthy profile) || negb (JsString.truthy app) then
          Some ("To star or unstar, provide both profile and app.", σ)
        else
          resolvedApp ← resolveAppValue app σ;
          match resolvedApp with
          | None =>
              Some ("App " +:+ JsString.dquote +:+ app +:+ JsString.dquote
                    +:+ " is not available.", σ)
          | Some (resolvedValue, resolvedName) =>
              let normalizedProfile :=
                if JsString.startsWith profile "@" then JsString.slice1 profile
                else profile in
              isStarred ← isHistoryItemStarred normalizedProfile resolvedValue σ;
              let label := "@" +:+ normalizedProfile +:+ " on " +:+ resolvedName in
              if bool_decide (action = action_star) && isStarred then
                Some (label +:+ " is already starred.", σ)
              else if bool_decide (action = action_unstar) && negb isStarred then
                Some (label +:+ " is not currently starred.", σ)
              else
                toggled ← toggleStarredHistoryItem normalizedProfile resolvedValue σ;
                Some (if bool_decide (action = action_star)
                      then "Starred " +:+ label +:+ "."
                      else "Unstarred " +:+ label +:+ ".",
                      toggled.2)
          end
    | _, _ => Some ("To star or unstar, provide both profile and app.", σ)
    end
  else if bool_decide (action = action_list_starred) then
    starredHistory ← getStarredUsageHistory app (Some limit) σ;
    if bool_decide (length starredHistory = 0%nat) then
      Some (match app with
            | Some a =>
                if JsString.truthy a
                then "No starred profiles found on " +:+ a +:+ "."
                else "No starred profiles found."
            | None => "No starred profiles found."
            end, σ)
    else
      historyLines ← formatHistoryLines starredHistory σ;
      let headerText :=
        match app with
        | Some a =>
            if JsString.truthy a
            then "Starred profiles on " +:+ a +:+ ":"
            else "Starred profiles:"
        | None => "Starred profiles:"
        end in
      Some (headerText +:+ JsString.newline +:+ JsString.newline
            +:+ JsString.join JsString.newline historyLines, σ)
  else
    usageHistory ← getUsageHistory σ;
    if bool_decide (length usageHistory = 0%nat) then
      Some ("No profile history found.", σ)
    else
      let filteredHistory :=
        match app with
        | Some a =>
            if JsString.truthy a then
              let appLower := JsString.toLowerCase a in
              filter (λ item, matchesApp appLower item) usageHistory
            else usageHistory
        | None => usageHistory
        end in
      if truthyArg app && bool_decide (length filteredHistory = 0%nat) then
        Some ("No profiles were recently opened on " +:+ default "" app +:+ ".", σ)
      else
        let sortedHistory :=
          JsArray.slice0 (JsSort.sort byTimestampDesc filteredHistory) limit in
        historyLines ← formatHistoryLines sortedHistory σ;
        let headerText :=
          if truthyArg app
          then "Recently opened profiles on " +:+ default "" app +:+ ":"
          else "Recently opened profiles:" in
        Some (headerText +:+ JsString.newline +:+ JsString.newline
              +:+ JsString.join JsString.newline historyLines, σ).

Definition getProfileHistory (args : HistoryToolArgs.t) (σ : LocalStorage)
  : string * LocalStorage :=
  let result := safeAsyncOperation (getProfileHistory_operation args σ) (fallbackMessage, σ) in
  (if JsString.truthy result.1 then result.1 else fallbackMessage, result.2).

End Tool.

(** ** Traces of calls *)

(** One call [addToUsageHistory(profile, app, appName)] at time [now]. *)
Module Call.
Record t := mk {
  now : Z;
  profile : string;
  app : string;
  appName : string;
}.
End Call.

(** The entry a call writes. *)
Definition callItem (c : Call.t) : UsageHistoryItem.t :=
  UsageHistoryItem.mk (Call.profile c) (Call.app c) (Call.appName c) (Call.now c).

Definition pairOf (item : UsageHistoryItem.t) : string * string :=
  (UsageHistoryItem.profile item, UsageHistoryItem.app item).

(** The pairs opened by a sequence of calls, each once, the most recently
    opened first. *)
Definition recent (calls : list Call.t) : list UsageHistoryItem.t :=
  foldl (λ r c, callItem c :: filter (otherPair (Call.profile c) (Call.app c)) r)
        [] calls.

Section Trace.
Context `{!Json (list UsageHistoryItem.t)}.

(** The calls of a trace, one after the other. *)
Definition runCalls (calls : list Call.t) (σ : LocalStorage) : option LocalStorage :=
  foldl (λ acc c,
           acc ≫= addToUsageHistory (Call.now c) (Call.profile c) (Call.app c)
                    (Call.appName c))
        (Some σ) calls.

End Trace.

(** ** Vocabulary of the theorems *)

(** Most recent first. *)
Definition newestFirst (a b : UsageHistoryItem.t) : Prop :=
  UsageHistoryItem.timestamp b ≤ UsageHistoryItem.timestamp a.

(** The words of the query: an item is starred when its pair key is in the
    starred list. *)
Definition isStarredItem (starredPairs : list string) (item : UsageHistoryItem.t) : Prop :=
  getHistoryPairKey (UsageHistoryItem.profile item) (UsageHistoryItem.app item)
    ∈ starredPairs.

(** The words of the query: an item matches an app filter when, ignoring
    letter case, its app is the filter or its app name contains the filter;
    without a filter every item matches. *)
Definition matchesFilter (app : option string) (item : UsageHistoryItem.t) : Prop :=
  match app with
  | None => True
  | Some a =>
      JsString.toLowerCase (UsageHistoryItem.app item) = JsString.toLowerCase a
      ∨ JsString.includes (JsString.toLowerCase (UsageHistoryItem.appName item))
          (JsString.toLowerCase a) = true
  end.

#[global] Instance isStarredItem_dec pairs item : Decision (isStarredItem pairs item).
Proof. unfold isStarredItem. apply _. Defined.

#[global] Instance matchesFilter_dec app item : Decision (matchesFilter app item).
Proof. unfold matchesFilter. destruct app; apply _. Defined.

(** The header of a listing of recent profiles. *)
Definition recentHeader (app : option string) : string :=
  match app with
  | Some a =>
      if JsString.truthy a
      then "Recently opened profiles on " +:+ a +:+ ":"
      else "Recently opened profiles:"
  | None => "Recently opened profiles:"
  end.

(** The profile as the tool passes it on:
    [profile.startsWith("@") ? profile.slice(1) : profile]. *)
Definition toolProfile (profile : string) : string :=
  if JsString.startsWith profile "@" then JsString.slice1 profile else profile.

(** The label of a pair in the tool's messages:
    [`@${normalizedProfile} on ${resolvedApp.name}`]. *)
Definition toolLabel (profile resolvedName : string) : string :=
  "@" +:+ toolProfile profile +:+ " on " +:+ resolvedName.

(** A string with no white space at either end. *)
Definition tight (s : string) : Prop :=
  JsString.startsWithWhiteSpace s = false ∧ JsString.endsWithWhiteSpace s = false.

(** [s] is [core] with white space around it. *)
Definition padded (core s : string) : Prop :=
  ∃ l r, JsString.allWhiteSpace l = true ∧ JsString.allWhiteSpace r = true
         ∧ s = l +:+ core +:+ r.

(** Equal up to letter case. *)
Definition sameUpToCase (s t : string) : Prop :=
  JsString.toLowerCase s = JsString.toLowerCase t.

(** Two profiles, written without white space around them, name the same
    handle: they are equal up to letter case, or one of them is the other
    with a "@" put before it, the other having no leading "@" of its own. *)
Definition sameHandle (c c' : string) : Prop :=
  sameUpToCase c c'
  ∨ (JsString.startsWith c' "@" = false ∧ sameUpToCase c ("@" +:+ c'))
  ∨ (JsString.startsWith c "@" = false ∧ sameUpToCase c' ("@" +:+ c)).

(** The profile has one leading "@" at most: either it does not start with
    "@", or what follows its "@" starts with neither "@" nor white space,
    or is white space only. *)
Definition oneLeadingAt (profile : string) : Prop :=
  JsString.startsWith profile "@" = true →
  (JsString.startsWith (JsString.slice1 profile) "@" = false
   ∧ JsString.startsWithWhiteSpace (JsString.slice1 profile) = false)
  ∨ JsString.allWhiteSpace (JsString.slice1 profile) = true.

(** The setting that decides for an app value: the last entry with that
    value, as a later [settingsMap.set] replaces an earlier one. *)
Definition lastSettingFor (appSettings : list AppSetting.t) (value : string)
  : option AppSetting.t :=
  last (filter (λ setting, AppSetting.value setting = value) appSettings).

Definition shownApp (appSettings : list AppSetting.t) (app : App.t) : Prop :=
  match lastSettingFor appSettings (App.value app) with
  | Some setting => AppSetting.visible setting = true
  | None => True
  end.

#[global] Instance shownApp_dec appSettings app : Decision (shownApp appSettings app).
Proof. unfold shownApp. destruct (lastSettingFor _ _); apply _. Defined.

(** The entry that [updateUsageHistoryItem] leaves in the place of [item]. *)
Definition renamedItem (now : Z) (oldProfile oldApp newProfile : string)
    (item : UsageHistoryItem.t) : UsageHistoryItem.t :=
  if decide (UsageHistoryItem.profile item = oldProfile
             ∧ UsageHistoryItem.app item = oldApp)
  then UsageHistoryItem.mk newProfile (UsageHistoryItem.app item)
         (UsageHistoryItem.appName item) now
  else item.

(** The input names the app: ignoring letter case and the white space
    around the input, it is the app's value or its name (the test of
    [resolveAppValue]). *)
Definition namesApp (inputApp : string) (item : App.t) : bool :=
  let normalizedInput := JsString.toLowerCase (JsString.trim inputApp) in
  bool_decide (JsString.toLowerCase (App.value item) = normalizedInput)
  || bool_decide (JsString.toLowerCase (App.name item) = normalizedInput).

(** The character ":" occurs in the string. *)
Fixpoint containsColon (s : string) : bool :=
  match s with
  | EmptyString => false
  | String c s' => bool_decide (c = ":"%char) || containsColon s'
  end.

(** ** A codec that satisfies the [Json] laws

    The helpers never look inside a stored text: they only need the laws of
    [Json]. This codec writes a document as the binary numeral of its code
    as a countable value; it is used where a concrete store is evaluated. *)

Module Codec.

Fixpoint pos_to_bits (p : positive) : string :=
  match p with
  | xH => "1"
  | xO p' => String "0" (String "0" (pos_to_bits p'))
  | xI p' => String "0" (String "1" (pos_to_bits p'))
  end.

Fixpoint bits_to_pos_aux (fuel : nat) (s : string) : option positive :=
  match fuel with
  | O => None
  | S fuel' =>
      match s with
      | String "1" EmptyString => Some xH
      | String "0" (String "0" s') => xO <$> bits_to_pos_aux fuel' s'
      | String "0" (String "1" s') => xI <$> bits_to_pos_aux fuel' s'
      | _ => None
      end
  end.

Definition bits_to_pos (s : string) : option positive :=
  bits_to_pos_aux (String.length s) s.

#[global, refine] Instance countable_json `{Countable A} : Json A := {|
  stringify a := pos_to_bits (encode a);
  parse s := bits_to_pos s ≫= decode;
|}.
Proof.
  - intros a. unfold bits_to_pos.
    assert (Haux : ∀ p fuel, (String.length (pos_to_bits p) ≤ fuel)%nat →
                             bits_to_pos_aux fuel (pos_to_bits p) = Some p).
    { induction p as [p IH|p IH|]; intros [|fuel] Hlen; simpl in *; try lia.
      - rewrite IH by lia. done.
      - rewrite IH by lia. done.
      - done. }
    rewrite Haux by done. simpl. apply decode_encode.
  - intros a. by destruct (encode a).
Defined.

End Codec.

(** ** Concrete stores

    Stores written with [Codec], on which the functions are evaluated. *)

Definition item (profile app appName : string) (timestamp : Z) : UsageHistoryItem.t :=
  UsageHistoryItem.mk profile app appName timestamp.

Definition history2 : list UsageHistoryItem.t :=
  [item "bob" "x" "X" 5; item "alice" "github" "GitHub" 7].

Definition store2 : LocalStorage :=
  {[ STORAGE_KEYS.USAGE_HISTORY := stringify history2 ]}.

(** Calls that open the given profiles one after the other on the app "x",
    at the times [start], [start + 1], ... *)
Fixpoint callsFrom (start : Z) (profiles : list string) : list Call.t :=
  match profiles with
  | [] => []
  | profile :: rest => Call.mk start profile "x" "X" :: callsFrom (start + 1) rest
  end.

Definition twentyProfiles : list string :=
  ["a"; "b"; "c"; "d"; "e"; "f"; "g"; "h"; "i"; "j";
   "k"; "l"; "m"; "n"; "o"; "p"; "q"; "r"; "s"; "t"].

(** "a" is inserted first, "b" second, ..., "t" last; then "a" is
    re-opened. *)
Definition reopenTrace : list Call.t :=
  callsFrom 1 twentyProfiles ++ [Call.mk 21 "a" "x" "X"].

Definition reopenStore : LocalStorage := default ∅ (runCalls reopenTrace ∅).

Definition reopenHistory : list UsageHistoryItem.t :=
  [item "a" "x" "X" 21; item "t" "x" "X" 20; item "s" "x" "X" 19;
   item "r" "x" "X" 18; item "q" "x" "X" 17; item "p" "x" "X" 16;
   item "o" "x" "X" 15; item "n" "x" "X" 14; item "m" "x" "X" 13;
   item "l" "x" "X" 12; item "k" "x" "X" 11; item "j" "x" "X" 10;
   item "i" "x" "X" 9; item "h" "x" "X" 8; item "g" "x" "X" 7;
   item "f" "x" "X" 6; item "e" "x" "X" 5; item "d" "x" "X" 4;
   item "c" "x" "X" 3; item "b" "x" "X" 2].

(** A store where bob on x is starred. *)
Definition starredStore : LocalStorage :=
  {[ STORAGE_KEYS.STARRED_HISTORY_ITEMS := stringify ["x::bob"] ]}.

(** A store with a history of three entries, two of them starred. *)
Definition history3 : list UsageHistoryItem.t :=
  [item "bob" "x" "X" 5; item "alice" "github" "GitHub" 7; item "carol" "x" "X" 9].

Definition queryStore : LocalStorage :=
  <[ STORAGE_KEYS.USAGE_HISTORY := stringify history3 ]>
    {[ STORAGE_KEYS.STARRED_HISTORY_ITEMS := stringify ["x::bob"; "x::carol"] ]}.

(** The tool with no default apps, no app information and a constant
    relative date. *)
Definition noAppInfo (σ : LocalStorage) (value : string) : option (option App.t) :=
  Some None.

Definition someTimeAgo (timestamp : Z) : string := "some time ago".

(** The app x, listed by default. *)
Definition appX : App.t := App.mk "x" "X" "https://x.com/{profile}".

(** Two settings for the app x: the first shows it, the second hides it. *)
Definition twoSettings : list AppSetting.t :=
  [AppSetting.mk "x" true; AppSetting.mk "x" false].

Definition settingsStore : LocalStorage :=
  {[ STORAGE_KEYS.APP_SETTINGS := stringify twoSettings ]}.

(** A history ordered newest first, with those of bob and carol on x
    starred. *)
Definition sortedHistory : list UsageHistoryItem.t :=
  [item "carol" "x" "X" 9; item "alice" "github" "GitHub" 7; item "bob" "x" "X" 5].

Definition sortedStore : LocalStorage :=
  <[ STORAGE_KEYS.USAGE_HISTORY := stringify sortedHistory ]>
    {[ STORAGE_KEYS.STARRED_HISTORY_ITEMS := stringify ["x::bob"; "x::carol"] ]}.

(** The same profile on x, opened under two spellings. *)
Definition spellingsHistory : list UsageHistoryItem.t :=
  [item "@Bob" "x" "X" 8; item "bob" "x" "X" 5].

Definition spellingsStore : LocalStorage :=
  {[ STORAGE_KEYS.USAGE_HISTORY := stringify spellingsHistory ]}.

(** A custom app, and a store that holds it. *)
Definition appMastodon : App.t :=
  App.mk "mastodon" "Mastodon" "https://mastodon.social/@{profile}".

Definition appGitlab : App.t :=
  App.mk "gitlab" "GitLab" "https://gitlab.com/{profile}".

(** A custom app with the value of the default app x. *)
Definition appOtherX : App.t := App.mk "x" "Another X" "https://example.com/{profile}".

Definition customStore : LocalStorage :=
  {[ STORAGE_KEYS.CUSTOM_APPS := stringify [appMastodon] ]}.

(** Custom apps where GitLab was added twice, and a store that holds them
    with a setting for Mastodon. *)
Definition customApps3 : list App.t := [appGitlab; appMastodon; appGitlab].

Definition customStore3 : LocalStorage :=
  <[ STORAGE_KEYS.CUSTOM_APPS := stringify customApps3 ]>
    {[ STORAGE_KEYS.APP_SETTINGS := stringify [AppSetting.mk "mastodon" false] ]}.

(** A history where alice on github has two entries, bob on x one between
    them, and bob on x is starred. *)
Definition history4 : list UsageHistoryItem.t :=
  [item "alice" "github" "GitHub" 9; item "bob" "x" "X" 8;
   item "alice" "github" "GitHub" 9; item "Bob" "x" "X" 3].

Definition store4 : LocalStorage :=
  <[ STORAGE_KEYS.USAGE_HISTORY := stringify history4 ]>
    {[ STORAGE_KEYS.STARRED_HISTORY_ITEMS := stringify ["x::bob"] ]}.

(** A store where the profile "@bob" (the "@" being part of the name) is
    starred on x. *)
Definition atNameStore : LocalStorage :=
  {[ STORAGE_KEYS.STARRED_HISTORY_ITEMS := stringify ["x::@bob"] ]}.

(** * Properties *)

(** Facts about strings, arrays and lists that do not mention the store. *)

(** ** Strings and arrays *)

Lemma slice0_take {A} (l : list A) (n : nat) :
  JsArray.slice0 l (Z.of_nat n) = take n l.
Proof.
  unfold JsArray.slice0.
  destruct (Z.ltb_spec (Z.of_nat n) 0) as [Hneg|_]; [lia|].
  by rewrite Nat2Z.id.
Qed.

Lemma slice0_nonneg {A} (l : list A) (e : Z) :
  0 ≤ e → JsArray.slice0 l e = take (Z.to_nat e) l.
Proof.
  intros He. unfold JsArray.slice0.
  by destruct (Z.ltb_spec e 0) as [Hneg|_]; [lia|].
Qed.

Lemma slice0_negative {A} (l : list A) (e : Z) :
  e < 0 → JsArray.slice0 l e = take (length l - Z.to_nat (- e)) l.
Proof.
  intros He. unfold JsArray.slice0.
  destruct (Z.ltb_spec e 0) as [_|Hpos]; [|lia].
  f_equal. lia.
Qed.

(** ** Sorting by timestamp *)

Lemma insert_Permutation {A} (compareFn : A → A → Z) (x : A) (l : list A) :
  JsSort.insert compareFn x l ≡ₚ x :: l.
Proof.
  induction l as [|y l IH]; simpl; [done|].
  destruct (0 <? compareFn x y); [|done].
  rewrite IH. apply Permutation_swap.
Qed.

Lemma sort_Permutation {A} (compareFn : A → A → Z) (l : list A) :
  JsSort.sort compareFn l ≡ₚ l.
Proof.
  induction l as [|x l IH]; simpl; [done|].
  by rewrite insert_Permutation, IH.
Qed.

Lemma sort_length {A} (compareFn : A → A → Z) (l : list A) :
  length (JsSort.sort compareFn l) = length l.
Proof. by rewrite sort_Permutation. Qed.

Lemma insert_newestFirst (x : UsageHistoryItem.t) (l : list UsageHistoryItem.t) :
  StronglySorted newestFirst l →
  StronglySorted newestFirst (JsSort.insert byTimestampDesc x l).
Proof.
  induction l as [|y l IH]; intros Hl; simpl.
  - repeat constructor.
  - apply StronglySorted_cons in Hl as [Hy Hl].
    unfold byTimestampDesc at 1.
    destruct (Z.ltb_spec 0 (UsageHistoryItem.timestamp y - UsageHistoryItem.timestamp x))
      as [Hlt|Hge].
    + apply StronglySorted_cons. split; [|by apply IH].
      rewrite insert_Permutation. constructor; [|done].
      unfold newestFirst. lia.
    + apply StronglySorted_cons. split; [|by apply StronglySorted_cons].
      constructor; [unfold newestFirst; lia|].
      eapply Forall_impl; [exact Hy|].
      unfold newestFirst. intros z Hz. lia.
Qed.

Lemma sort_newestFirst (l : list UsageHistoryItem.t) :
  StronglySorted newestFirst (JsSort.sort byTimestampDesc l).
Proof.
  induction l as [|x l IH]; simpl; [constructor|].
  by apply insert_newestFirst.
Qed.

(** The sort is stable: a list that is already in order is left as it is. *)
Lemma sort_sorted_id (l : list UsageHistoryItem.t) :
  StronglySorted newestFirst l → JsSort.sort byTimestampDesc l = l.
Proof.
  induction l as [|x l IH]; intros Hl; simpl; [done|].
  apply StronglySorted_cons in Hl as [Hx Hl].
  rewrite IH by done.
  destruct l as [|y l]; simpl; [done|].
  apply Forall_cons in Hx as [Hxy _].
  unfold byTimestampDesc, newestFirst in *.
  destruct (Z.ltb_spec 0 (UsageHistoryItem.timestamp y - UsageHistoryItem.timestamp x));
    [lia|done].
Qed.

Lemma includes_empty (s : string) : JsString.includes s "" = true.
Proof. by destruct s. Qed.

(** ** Filters of the queries *)

Lemma matchesApp_matchesFilter (a : string) (item : UsageHistoryItem.t) :
  matchesApp (JsString.toLowerCase a) item ↔ matchesFilter (Some a) item.
Proof.
  unfold matchesApp, matchesFilter.
  rewrite orb_True, bool_decide_spec, Is_true_true. done.
Qed.

Lemma toLowerCase_empty_inv (a : string) :
  JsString.truthy a = false → JsString.toLowerCase a = "".
Proof. by destruct a. Qed.

(** The app filter of the code, an optional string that only counts when
    it is truthy, selects the items that match the filter. *)
Lemma app_filter_matchesFilter (app : option string) (l : list UsageHistoryItem.t) :
  match app with
  | Some a =>
      if JsString.truthy a
      then filter (λ item, matchesApp (JsString.toLowerCase a) item) l
      else l
  | None => l
  end = filter (matchesFilter app) l.
Proof.
  destruct app as [a|]; simpl.
  - destruct (JsString.truthy a) eqn:Ha.
    + apply list_filter_iff. intros item. apply matchesApp_matchesFilter.
    + symmetry. induction l as [|x l IH]; [done|].
      rewrite filter_cons_True, IH; [done|].
      right. rewrite (toLowerCase_empty_inv a Ha). apply includes_empty.
  - symmetry. induction l as [|x l IH]; [done|].
    by rewrite filter_cons_True, IH.
Qed.

Lemma starred_matching_filter (starredPairs : list string) (app : option string)
    (history : list UsageHistoryItem.t) :
  filter (matchesFilter app) (filter (isStarredItem starredPairs) history)
  ≡ₚ filter (λ item, isStarredItem starredPairs item ∧ matchesFilter app item) history.
Proof.
  rewrite list_filter_filter.
  erewrite list_filter_iff; [done|]. intros item. simpl. tauto.
Qed.

(** ** Trimming and normalised keys *)

Lemma trimStart_allWhiteSpace_app (ws s : string) :
  JsString.allWhiteSpace ws = true →
  JsString.trimStart (ws +:+ s) = JsString.trimStart s.
Proof.
  induction ws as [|c ws IH]; simpl; [done|].
  intros [Hc Hws]%andb_prop. rewrite Hc. by apply IH.
Qed.

Lemma trimStart_tight (s : string) :
  JsString.startsWithWhiteSpace s = false → JsString.trimStart s = s.
Proof. destruct s as [|c s]; simpl; [done|]. by intros ->. Qed.

Lemma trimEnd_allWhiteSpace (ws : string) :
  JsString.allWhiteSpace ws = true → JsString.trimEnd ws = "".
Proof.
  induction ws as [|c ws IH]; simpl; [done|].
  intros [Hc Hws]%andb_prop. by rewrite IH, Hc.
Qed.

Lemma trimEnd_app_allWhiteSpace (s ws : string) :
  JsString.allWhiteSpace ws = true →
  JsString.trimEnd (s +:+ ws) = JsString.trimEnd s.
Proof.
  intros Hws. induction s as [|c s IH]; simpl.
  - by apply trimEnd_allWhiteSpace.
  - by rewrite IH.
Qed.

Lemma trimEnd_tight (s : string) :
  JsString.endsWithWhiteSpace s = false → JsString.trimEnd s = s.
Proof.
  induction s as [|c s IH]; [done|].
  destruct s as [|d s].
  - simpl. by intros ->.
  - intros Hs. change (JsString.endsWithWhiteSpace (String d s) = false) in Hs.
    change (JsString.trimEnd (String c (String d s)))
      with (match JsString.trimEnd (String d s) with
            | "" => if JsString.isWhiteSpace c then "" else String c ""
            | t => String c t
            end).
    by rewrite IH.
Qed.

Lemma trimStart_allWhiteSpace (ws : string) :
  JsString.allWhiteSpace ws = true → JsString.trimStart ws = "".
Proof.
  induction ws as [|c ws IH]; simpl; [done|].
  intros [Hc Hws]%andb_prop. rewrite Hc. by apply IH.
Qed.

Lemma trim_padded (core s : string) :
  tight core → padded core s → JsString.trim s = core.
Proof.
  intros [Hstart Hend] (l & r & Hl & Hr & ->). unfold JsString.trim.
  rewrite trimStart_allWhiteSpace_app by done.
  destruct core as [|c core].
  - simpl. by rewrite trimStart_allWhiteSpace.
  - rewrite trimStart_tight by done.
    rewrite trimEnd_app_allWhiteSpace by done.
    by apply trimEnd_tight.
Qed.

Lemma normalizeApp_padded (a s : string) :
  tight a → padded a s → normalizeApp s = JsString.toLowerCase a.
Proof. intros Ha Hs. unfold normalizeApp. by rewrite (trim_padded a s). Qed.

Lemma tight_at (q : string) : tight q → tight ("@" +:+ q).
Proof.
  intros [Hstart Hend]. split; [done|].
  destruct q as [|c q]; [done|]. exact Hend.
Qed.

Lemma normalizeProfile_padded (c p : string) :
  tight c → padded c p → normalizeProfile p = JsString.toLowerCase (toolProfile c).
Proof.
  intros Hc Hp. unfold normalizeProfile, toolProfile. by rewrite (trim_padded c p).
Qed.

(** Every string is its trimmed core with white space around it, so
    [tight] and [padded] describe every input. *)
Lemma trimStart_split (s : string) :
  ∃ l, JsString.allWhiteSpace l = true ∧ s = l +:+ JsString.trimStart s.
Proof.
  induction s as [|ch s IH]; [by exists ""|]. simpl.
  destruct (JsString.isWhiteSpace ch) eqn:Hch; [|by exists ""].
  destruct IH as (l & Hl & Hs). exists (String ch l). simpl.
  rewrite Hch, Hl. split; [done|]. exact (f_equal (String ch) Hs).
Qed.

Lemma trimStart_start (s : string) :
  JsString.startsWithWhiteSpace (JsString.trimStart s) = false.
Proof.
  induction s as [|ch s IH]; [done|]. simpl.
  by destruct (JsString.isWhiteSpace ch) eqn:Hch.
Qed.

Lemma trimEnd_split (s : string) :
  ∃ r, JsString.allWhiteSpace r = true ∧ s = JsString.trimEnd s +:+ r.
Proof.
  induction s as [|ch s IH]; [by exists ""|]. simpl.
  destruct IH as (r & Hr & Hs).
  destruct (JsString.trimEnd s) as [|d t] eqn:Ht.
  - destruct (JsString.isWhiteSpace ch) eqn:Hch.
    + exists (String ch r). simpl. rewrite Hch, Hr. split; [done|].
      exact (f_equal (String ch) Hs).
    + exists r. split; [done|]. exact (f_equal (String ch) Hs).
  - exists r. split; [done|]. exact (f_equal (String ch) Hs).
Qed.

Lemma trimEnd_end (s : string) :
  JsString.endsWithWhiteSpace (JsString.trimEnd s) = false.
Proof.
  induction s as [|ch s IH]; [done|]. simpl.
  destruct (JsString.trimEnd s) as [|d t] eqn:Ht.
  - by destruct (JsString.isWhiteSpace ch) eqn:Hch; simpl; rewrite ?Hch.
  - exact IH.
Qed.

Lemma trimEnd_start (s : string) :
  JsString.startsWithWhiteSpace s = false →
  JsString.startsWithWhiteSpace (JsString.trimEnd s) = false.
Proof.
  destruct s as [|ch s]; [done|]. simpl. intros Hch.
  destruct (JsString.trimEnd s); by rewrite ?Hch.
Qed.

Lemma padded_trim (s : string) : tight (JsString.trim s) ∧ padded (JsString.trim s) s.
Proof.
  unfold JsString.trim. split.
  - split; [apply trimEnd_start, trimStart_start|apply trimEnd_end].
  - destruct (trimStart_split s) as (l & Hl & Hs).
    destruct (trimEnd_split (JsString.trimStart s)) as (r & Hr & Ht).
    exists l, r. split; [done|]. split; [done|]. by rewrite <- Ht.
Qed.

(** ** Letter case and the leading "@" *)

Lemma lowerChar_at (ch : ascii) : JsString.lowerChar ch = "@"%char ↔ ch = "@"%char.
Proof.
  destruct ch as [[] [] [] [] [] [] [] []]; vm_compute; split; congruence.
Qed.

Lemma startsWith_at_cons (ch : ascii) (s : string) :
  JsString.startsWith (String ch s) "@" = bool_decide (ch = "@"%char).
Proof.
  unfold JsString.startsWith.
  change (String.prefix "@" (String ch s))
    with (if ascii_dec "@" ch then String.prefix "" s else false).
  destruct (ascii_dec "@" ch) as [<-|Hne].
  - by destruct s.
  - by rewrite bool_decide_eq_false_2 by congruence.
Qed.

Lemma startsWith_at_toLowerCase (s : string) :
  JsString.startsWith (JsString.toLowerCase s) "@" = JsString.startsWith s "@".
Proof.
  destruct s as [|ch s]; [done|]. simpl JsString.toLowerCase.
  rewrite !startsWith_at_cons. apply bool_decide_ext, lowerChar_at.
Qed.

Lemma toolProfile_toLowerCase (s : string) :
  JsString.toLowerCase (toolProfile s) = toolProfile (JsString.toLowerCase s).
Proof.
  unfold toolProfile. rewrite startsWith_at_toLowerCase.
  destruct (JsString.startsWith s "@"); [|done]. by destruct s.
Qed.

Lemma append_at (t : string) : "@" +:+ t = String "@" t.
Proof. reflexivity. Qed.

Lemma toolProfile_eq_iff (s t : string) :
  toolProfile s = toolProfile t
  ↔ s = t
    ∨ (JsString.startsWith t "@" = false ∧ s = "@" +:+ t)
    ∨ (JsString.startsWith s "@" = false ∧ t = "@" +:+ s).
Proof.
  unfold toolProfile. rewrite !append_at.
  destruct s as [|x s], t as [|y t]; rewrite ?startsWith_at_cons;
    try destruct (decide (x = "@"%char)) as [->|Hx];
    try destruct (decide (y = "@"%char)) as [->|Hy];
    rewrite ?bool_decide_eq_true_2, ?bool_decide_eq_false_2 by done;
    change (JsString.startsWith "" "@") with false; simpl;
    intuition congruence.
Qed.

(** Two trimmed profiles name the same handle exactly when the key stores
    them alike. *)
Lemma sameHandle_iff (c c' : string) :
  sameHandle c c'
  ↔ JsString.toLowerCase (toolProfile c) = JsString.toLowerCase (toolProfile c').
Proof.
  rewrite !toolProfile_toLowerCase, toolProfile_eq_iff, !startsWith_at_toLowerCase.
  done.
Qed.

(** ** One leading "@" *)

Lemma length_toLowerCase (s : string) :
  String.length (JsString.toLowerCase s) = String.length s.
Proof. induction s as [|ch s IH]; simpl; [done|]. by rewrite IH. Qed.

Lemma trimEnd_at (r : string) :
  JsString.trimEnd (String "@" r) = String "@" (JsString.trimEnd r).
Proof. simpl. by destruct (JsString.trimEnd r). Qed.

Lemma normalizeProfile_at (r : string) :
  normalizeProfile (String "@" r) = JsString.toLowerCase (JsString.trimEnd r).
Proof.
  unfold normalizeProfile, JsString.trim.
  change (JsString.trimStart (String "@" r)) with (String "@" r).
  rewrite trimEnd_at, startsWith_at_cons. done.
Qed.

Lemma length_trimEnd_trimStart (s : string) :
  (String.length (JsString.trimEnd (JsString.trimStart s))
   ≤ String.length (JsString.trimEnd s))%nat.
Proof.
  induction s as [|ch s IH]; [done|]. simpl JsString.trimStart.
  destruct (JsString.isWhiteSpace ch) eqn:Hch; [|done].
  etrans; [exact IH|]. simpl.
  destruct (JsString.trimEnd s); simpl; [|lia]. rewrite Hch. simpl. lia.
Qed.

Lemma length_toolProfile (s : string) :
  (String.length (toolProfile s) ≤ String.length s)%nat.
Proof.
  unfold toolProfile. destruct (JsString.startsWith s "@"); [|done].
  destruct s; simpl; lia.
Qed.

Lemma trimEnd_empty (s : string) :
  JsString.trimEnd s = "" → JsString.allWhiteSpace s = true.
Proof.
  induction s as [|ch s IH]; [done|]. simpl.
  destruct (JsString.trimEnd s); [|done].
  destruct (JsString.isWhiteSpace ch); [|done]. intros _. by apply IH.
Qed.

(** The tool strips a leading "@" before the key does. The two agree, so
    that the tool looks up the pair it was given, exactly on the profiles
    with one leading "@" at most. *)
Lemma normalizeProfile_toolProfile (profile : string) :
  normalizeProfile (toolProfile profile) = normalizeProfile profile
  ↔ oneLeadingAt profile.
Proof.
  unfold oneLeadingAt, toolProfile.
  destruct profile as [|ch r]; [done|].
  rewrite startsWith_at_cons.
  destruct (decide (ch = "@"%char)) as [->|Hch].
  2:{ rewrite bool_decide_eq_false_2 by done. done. }
  rewrite bool_decide_eq_true_2 by done.
  change (JsString.slice1 (String "@" r)) with r.
  rewrite normalizeProfile_at.
  split.
  - intros Heq _.
    destruct (JsString.allWhiteSpace r) eqn:Hws; [by right|]. left.
    apply (f_equal String.length) in Heq.
    unfold normalizeProfile, JsString.trim in Heq.
    rewrite !length_toLowerCase in Heq.
    pose proof (length_toolProfile (JsString.trimEnd (JsString.trimStart r))) as Hstrip.
    destruct r as [|d r]; [done|]. rewrite startsWith_at_cons.
    simpl JsString.startsWithWhiteSpace.
    destruct (JsString.isWhiteSpace d) eqn:Hd.
    + exfalso. simpl JsString.trimStart in Heq, Hstrip. rewrite Hd in Heq, Hstrip.
      pose proof (length_trimEnd_trimStart r) as Hle.
      simpl in Hws. rewrite Hd in Hws. simpl in Hws.
      simpl JsString.trimEnd in Heq.
      destruct (JsString.trimEnd r) as [|e t] eqn:Ht.
      * apply trimEnd_empty in Ht. congruence.
      * simpl in Heq, Hle. unfold toolProfile in Hstrip. lia.
    + split; [|done]. apply bool_decide_eq_false. intros ->.
      clear Hstrip. rewrite (trimStart_tight (String "@" r)) in Heq by done.
      rewrite trimEnd_at in Heq. unfold toolProfile in Heq.
      rewrite startsWith_at_cons, bool_decide_eq_true_2 in Heq by done.
      simpl in Heq. lia.
  - intros Hone. destruct (Hone eq_refl) as [[Hat Hws]|Hws]; clear Hone.
    + unfold normalizeProfile, JsString.trim.
      rewrite (trimStart_tight r) by done.
      destruct r as [|d r]; [done|]. rewrite startsWith_at_cons in Hat.
      apply bool_decide_eq_false in Hat.
      assert (Hne : JsString.startsWith (JsString.trimEnd (String d r)) "@" = false).
      { simpl. destruct (JsString.trimEnd r).
        - destruct (JsString.isWhiteSpace d); [done|].
          rewrite startsWith_at_cons. by apply bool_decide_eq_false.
        - rewrite startsWith_at_cons. by apply bool_decide_eq_false. }
      by rewrite Hne.
    + unfold normalizeProfile, JsString.trim.
      by rewrite trimStart_allWhiteSpace, (trimEnd_allWhiteSpace r).
Qed.

(** ** The settings map *)

Lemma buildSettingsMap_snoc (appSettings : list AppSetting.t) (setting : AppSetting.t) :
  buildSettingsMap (appSettings ++ [setting])
  = <[AppSetting.value setting := setting]> (buildSettingsMap appSettings).
Proof. unfold buildSettingsMap. by rewrite foldl_snoc. Qed.

Lemma buildSettingsMap_lookup (appSettings : list AppSetting.t) (value : string) :
  buildSettingsMap appSettings !! value = lastSettingFor appSettings value.
Proof.
  unfold lastSettingFor.
  induction appSettings as [|setting appSettings IH] using rev_ind; [done|].
  rewrite buildSettingsMap_snoc, filter_app.
  destruct (decide (AppSetting.value setting = value)) as [Heq|Hne].
  - rewrite filter_cons_True, filter_nil by done.
    rewrite last_snoc. subst value. apply lookup_insert_eq.
  - rewrite filter_cons_False, filter_nil by done.
    rewrite app_nil_r, lookup_insert_ne by done. apply IH.
Qed.

Lemma isVisible_shownApp (appSettings : list AppSetting.t) (app : App.t) :
  isVisible (buildSettingsMap appSettings) app ↔ shownApp appSettings app.
Proof.
  unfold isVisible, shownApp. rewrite buildSettingsMap_lookup.
  destruct (lastSettingFor _ _); [apply Is_true_true|done].
Qed.

Lemma lastSettingFor_Some (appSettings : list AppSetting.t) (value : string)
    (setting : AppSetting.t) :
  lastSettingFor appSettings value = Some setting →
  setting ∈ appSettings ∧ AppSetting.value setting = value.
Proof.
  unfold lastSettingFor. intros Hlast.
  apply last_Some_elem_of in Hlast.
  apply list_elem_of_filter in Hlast. tauto.
Qed.

Lemma lastSettingFor_None (appSettings : list AppSetting.t) (value : string) :
  lastSettingFor appSettings value = None →
  ∀ setting, setting ∈ appSettings → AppSetting.value setting ≠ value.
Proof.
  unfold lastSettingFor. intros Hlast setting Hin Hvalue.
  apply last_None in Hlast.
  assert (Hin' : setting ∈ filter (λ s, AppSetting.value s = value) appSettings)
    by (by apply list_elem_of_filter).
  rewrite Hlast in Hin'. by apply not_elem_of_nil in Hin'.
Qed.

Lemma NoDup_values_inj (appSettings : list AppSetting.t) (s1 s2 : AppSetting.t) :
  NoDup (map AppSetting.value appSettings) →
  s1 ∈ appSettings → s2 ∈ appSettings →
  AppSetting.value s1 = AppSetting.value s2 → s1 = s2.
Proof.
  induction appSettings as [|s l IH]; intros Hnd H1 H2 Hv.
  - by apply not_elem_of_nil in H1.
  - simpl in Hnd. apply NoDup_cons in Hnd as [Hs Hnd].
    apply elem_of_cons in H1 as [->|H1]; apply elem_of_cons in H2 as [->|H2].
    + done.
    + exfalso. apply Hs. rewrite Hv. by apply (list_elem_of_fmap_2 AppSetting.value).
    + exfalso. apply Hs. rewrite <- Hv. by apply (list_elem_of_fmap_2 AppSetting.value).
    + by apply IH.
Qed.

(** ** The most recently opened pairs *)

Lemma recent_snoc (calls : list Call.t) (c : Call.t) :
  recent (calls ++ [c])
  = callItem c :: filter (otherPair (Call.profile c) (Call.app c)) (recent calls).
Proof. unfold recent. by rewrite foldl_snoc. Qed.

Lemma otherPair_pairOf (profile app : string) (item : UsageHistoryItem.t) :
  otherPair profile app item ↔ pairOf item ≠ (profile, app).
Proof.
  unfold otherPair, pairOf. split.
  - intros Hne [= Hp Ha]. by apply Hne.
  - intros Hne [Hp Ha]. apply Hne. by rewrite Hp, Ha.
Qed.

Lemma filter_otherPair_id (profile app : string) (l : list UsageHistoryItem.t) :
  (profile, app) ∉ pairOf <$> l → filter (otherPair profile app) l = l.
Proof.
  induction l as [|x l IH]; [done|]. rewrite fmap_cons, not_elem_of_cons.
  intros [Hx Hl]. rewrite filter_cons_True, IH; [done..|].
  by apply otherPair_pairOf.
Qed.

Lemma NoDup_pairs_filter (P : UsageHistoryItem.t → Prop) `{∀ x, Decision (P x)}
    (l : list UsageHistoryItem.t) :
  NoDup (pairOf <$> l) → NoDup (pairOf <$> filter P l).
Proof.
  induction l as [|x l IH]; [done|]. rewrite fmap_cons, NoDup_cons.
  intros [Hx Hl]. rewrite filter_cons. destruct (decide (P x)); [|by apply IH].
  rewrite fmap_cons, NoDup_cons. split; [|by apply IH].
  intros (y & Hy & [_ Hin]%list_elem_of_filter)%list_elem_of_fmap.
  apply Hx. rewrite Hy. by apply list_elem_of_fmap_2.
Qed.

Lemma NoDup_pairs_recent (calls : list Call.t) : NoDup (pairOf <$> recent calls).
Proof.
  induction calls as [|c calls IH] using rev_ind; [constructor|].
  rewrite recent_snoc, fmap_cons, NoDup_cons. split; [|by apply NoDup_pairs_filter].
  intros (y & Hy & [Hother _]%list_elem_of_filter)%list_elem_of_fmap.
  apply otherPair_pairOf in Hother. by apply Hother.
Qed.

(** With the pairs distinct, the filter removes at most one entry, so it
    commutes with the truncation one entry further. *)
Lemma take_filter_take (profile app : string) (n : nat)
    (l : list UsageHistoryItem.t) :
  NoDup (pairOf <$> l) →
  take n (filter (otherPair profile app) (take (S n) l))
  = take n (filter (otherPair profile app) l).
Proof.
  revert n. induction l as [|x l IH]; intros n; [done|].
  rewrite fmap_cons, NoDup_cons. intros [Hx Hl]. simpl.
  rewrite !filter_cons. destruct (decide (otherPair profile app x)) as [Hp|Hp].
  - destruct n as [|n]; [done|]. simpl. by rewrite IH.
  - assert (Hpair : pairOf x = (profile, app)).
    { destruct (decide (pairOf x = (profile, app))) as [|Hne]; [done|].
      by apply otherPair_pairOf in Hne. }
    rewrite Hpair in Hx.
    rewrite (filter_otherPair_id profile app l) by done.
    rewrite filter_otherPair_id.
    + rewrite take_take. f_equal. lia.
    + intros Hin. apply Hx.
      apply list_elem_of_fmap in Hin as (y & Hy & Hin).
      rewrite Hy. apply list_elem_of_fmap_2. by apply (subseteq_take n l).
Qed.

Lemma filter_split {A} (P : A → Prop) `{∀ x, Decision (P x)} (l r1 r2 : list A) (d : A) :
  filter P l = r1 ++ d :: r2 →
  ∃ l1 l2, l = l1 ++ d :: l2 ∧ filter P l1 = r1 ∧ P d.
Proof.
  revert r1. induction l as [|x l IH]; intros r1 Hf.
  - by destruct r1.
  - rewrite filter_cons in Hf. destruct (decide (P x)) as [Hx|Hx].
    + destruct r1 as [|y r1]; simpl in Hf.
      * injection Hf as -> Hf. by exists [], l.
      * injection Hf as -> Hf. destruct (IH r1 Hf) as (l1 & l2 & -> & <- & Hd).
        exists (y :: l1), l2. by rewrite filter_cons_True.
    + destruct (IH r1 Hf) as (l1 & l2 & -> & <- & Hd).
      exists (x :: l1), l2. by rewrite filter_cons_False.
Qed.

(** The order of [recent] is the order of last openings: the calls split at
    the last opening of an entry's pair, and every entry before it in the
    list was opened after that. *)
Lemma recent_split (calls : list Call.t) (r1 r2 : list UsageHistoryItem.t)
    (d : UsageHistoryItem.t) :
  recent calls = r1 ++ d :: r2 →
  ∃ calls1 c calls2,
    calls = calls1 ++ c :: calls2
    ∧ callItem c = d
    ∧ Forall (λ c', pairOf (callItem c') ≠ pairOf d) calls2
    ∧ ∀ item, item ∈ r1 → ∃ c', c' ∈ calls2 ∧ callItem c' = item.
Proof.
  revert r1 r2 d. induction calls as [|c calls IH] using rev_ind; intros r1 r2 d Hr.
  - by destruct r1.
  - rewrite recent_snoc in Hr. destruct r1 as [|x r1]; simpl in Hr.
    + injection Hr as <- _. exists calls, c, []. split; [done|]. split; [done|].
      split; [constructor|]. intros item Hin. by apply not_elem_of_nil in Hin.
    + injection Hr as <- Hr.
      apply filter_split in Hr as (l1 & l2 & Hrecent & <- & Hd).
      destruct (IH _ _ _ Hrecent) as (calls1 & c0 & calls2 & -> & Hc0 & Hlater & Hbefore).
      exists calls1, c0, (calls2 ++ [c]).
      split; [by rewrite <- app_assoc|]. split; [done|]. split.
      * apply Forall_app. split; [done|]. constructor; [|constructor].
        apply otherPair_pairOf in Hd. intros Heq. apply Hd. by rewrite <- Heq.
      * intros item [->|Hin]%elem_of_cons.
        -- exists c. split; [|done]. apply elem_of_app. right. by left.
        -- apply list_elem_of_filter in Hin as [_ Hin].
           destruct (Hbefore item Hin) as (c' & Hc' & Hitem).
           exists c'. split; [|done]. apply elem_of_app. by left.
Qed.

(** * Properties of the helpers *)

Section Store.
Local Set Default Proof Using "Type*".
Context `{!Json (list UsageHistoryItem.t), !Json (list string),
          !Json (list AppSetting.t), !Json (list App.t)}.

(** ** Readers of the store *)

Lemma getUsageHistory_stored (σ : LocalStorage) history :
  σ !! STORAGE_KEYS.USAGE_HISTORY = Some (stringify history) →
  getUsageHistory σ = Some history.
Proof.
  intros Hσ. unfold getUsageHistory, Storage.getItem.
  by rewrite Hσ, stringify_truthy, parse_stringify.
Qed.

Lemma getStarredHistoryPairs_stored (σ : LocalStorage) pairs :
  σ !! STORAGE_KEYS.STARRED_HISTORY_ITEMS = Some (stringify pairs) →
  getStarredHistoryPairs σ = Some pairs.
Proof.
  intros Hσ. unfold getStarredHistoryPairs, Storage.getItem.
  by rewrite Hσ, stringify_truthy, parse_stringify.
Qed.

Lemma getUsageHistory_setItem (σ : LocalStorage) history :
  getUsageHistory (Storage.setItem STORAGE_KEYS.USAGE_HISTORY (stringify history) σ)
  = Some history.
Proof. apply getUsageHistory_stored. apply lookup_insert_eq. Qed.

Lemma getStarredHistoryPairs_set (σ : LocalStorage) pairs :
  getStarredHistoryPairs (setStarredHistoryPairs pairs σ) = Some pairs.
Proof. apply getStarredHistoryPairs_stored. apply lookup_insert_eq. Qed.

(** C6. When nothing is stored under its key, each of [getUsageHistory],
    [getStarredHistoryPairs], [getCustomApps] and [getAppSettings] returns
    the empty array and does not throw. *)
Theorem readers_default_to_empty (σ : LocalStorage) :
  (σ !! STORAGE_KEYS.USAGE_HISTORY = None → getUsageHistory σ = Some [])
  ∧ (σ !! STORAGE_KEYS.STARRED_HISTORY_ITEMS = None → getStarredHistoryPairs σ = Some [])
  ∧ (σ !! STORAGE_KEYS.CUSTOM_APPS = None → getCustomApps σ = Some [])
  ∧ (σ !! STORAGE_KEYS.APP_SETTINGS = None → getAppSettings σ = Some []).
Proof.
  unfold getUsageHistory, getStarredHistoryPairs, getCustomApps, getAppSettings,
    Storage.getItem.
  repeat split; intros Hσ; by rewrite Hσ.
Qed.

(** ** Writing the usage history *)

(** C1. For every prior history, [addToUsageHistory] removes the entries
    whose profile and app both equal the given ones, puts the new entry
    (stamped with the current time) at the front, keeps the first 20
    entries and writes that list back under the history key. *)
Theorem addToUsageHistory_spec (now : Z) (profile app appName : string)
    (σ : LocalStorage) (history : list UsageHistoryItem.t) :
  getUsageHistory σ = Some history →
  let deduped :=
    filter (λ item, ¬ (UsageHistoryItem.profile item = profile
                       ∧ UsageHistoryItem.app item = app)) history in
  let updated := take 20 (UsageHistoryItem.mk profile app appName now :: deduped) in
  addToUsageHistory now profile app appName σ
    = Some (<[STORAGE_KEYS.USAGE_HISTORY := stringify updated]> σ)
  ∧ getUsageHistory (<[STORAGE_KEYS.USAGE_HISTORY := stringify updated]> σ)
    = Some updated.
Proof.
  intros Hh deduped updated. split.
  - unfold addToUsageHistory. rewrite Hh. simpl.
    by rewrite (slice0_take _ 20).
  - apply getUsageHistory_setItem.
Qed.

(** C2. From a history of at most 20 entries, each of [addToUsageHistory],
    [removeUsageHistoryItem] and [updateUsageHistoryItem] succeeds and
    leaves a history of at most 20 entries. *)
Theorem history_stays_bounded (now : Z) (σ : LocalStorage)
    (history : list UsageHistoryItem.t) (p a n p' : string) :
  getUsageHistory σ = Some history →
  (length history ≤ 20)%nat →
  (∃ σ' history', addToUsageHistory now p a n σ = Some σ'
     ∧ getUsageHistory σ' = Some history' ∧ (length history' ≤ 20)%nat)
  ∧ (∃ σ' history', removeUsageHistoryItem p a σ = Some σ'
     ∧ getUsageHistory σ' = Some history' ∧ (length history' ≤ 20)%nat)
  ∧ (∃ σ' history', updateUsageHistoryItem now p a p' σ = Some σ'
     ∧ getUsageHistory σ' = Some history' ∧ (length history' ≤ 20)%nat).
Proof.
  intros Hh Hlen. repeat split.
  - unfold addToUsageHistory. rewrite Hh. simpl.
    eexists _, _. split; [done|]. split; [apply getUsageHistory_setItem|].
    rewrite (slice0_take _ 20), length_take. lia.
  - unfold removeUsageHistoryItem. rewrite Hh. simpl.
    eexists _, _. split; [done|]. split; [apply getUsageHistory_setItem|].
    pose proof (length_filter (otherPair p a) history). lia.
  - unfold updateUsageHistoryItem. rewrite Hh. simpl.
    eexists _, _. split; [done|]. split; [apply getUsageHistory_setItem|].
    by rewrite length_map.
Qed.

(** ** Starred history query *)

(** What [getStarredUsageHistory] computes from a readable store. *)
Lemma getStarredUsageHistory_eq (app : option string) (limit : option Z)
    (σ : LocalStorage) (history : list UsageHistoryItem.t) (starredPairs : list string) :
  getUsageHistory σ = Some history →
  getStarredHistoryPairs σ = Some starredPairs →
  getStarredUsageHistory app limit σ
  = let sorted :=
      JsSort.sort byTimestampDesc
        (filter (matchesFilter app) (filter (isStarredItem starredPairs) history)) in
    Some (match limit with
          | Some limit => JsArray.slice0 sorted limit
          | None => sorted
          end).
Proof.
  intros Hh Hp. unfold getStarredUsageHistory. rewrite Hh, Hp. simpl.
  rewrite <- app_filter_matchesFilter.
  replace (filter (isStarredItem starredPairs) history) with
    (filter (λ item, getHistoryPairKey (UsageHistoryItem.profile item)
                       (UsageHistoryItem.app item)
                     ∈ (list_to_set starredPairs : gset string)) history); [done|].
  apply list_filter_iff. intros item. unfold isStarredItem.
  by rewrite elem_of_list_to_set.
Qed.


(** X2. A negative limit is not a count: with [limit < 0],
    [getStarredUsageHistory] returns the sorted list of starred matching
    items without its last [-limit] items, as [slice(0, limit)] does. *)
Theorem getStarredUsageHistory_negative_limit (app : option string) (limit : Z)
    (σ : LocalStorage) (history : list UsageHistoryItem.t) (starredPairs : list string) :
  getUsageHistory σ = Some history →
  getStarredHistoryPairs σ = Some starredPairs →
  limit < 0 →
  ∃ sorted,
    sorted ≡ₚ filter (λ item, isStarredItem starredPairs item ∧ matchesFilter app item)
                     history
    ∧ StronglySorted newestFirst sorted
    ∧ getStarredUsageHistory app (Some limit) σ
      = Some (take (length sorted - Z.to_nat (- limit)) sorted).
Proof.
  intros Hh Hp Hlimit.
  rewrite (getStarredUsageHistory_eq app _ σ history starredPairs) by done.
  eexists. split; [|split; [apply sort_newestFirst|]].
  - rewrite sort_Permutation. apply starred_matching_filter.
  - simpl. by rewrite slice0_negative.
Qed.

(** ** Starring *)

Lemma isHistoryItemStarred_stored (profile app : string) (σ : LocalStorage)
    (starredPairs : list string) :
  getStarredHistoryPairs σ = Some starredPairs →
  isHistoryItemStarred profile app σ
  = Some (bool_decide (getHistoryPairKey profile app ∈ starredPairs)).
Proof. intros Hp. unfold isHistoryItemStarred. by rewrite Hp. Qed.

Lemma toggle_present (profile app : string) (σ : LocalStorage)
    (starredPairs : list string) :
  getStarredHistoryPairs σ = Some starredPairs →
  getHistoryPairKey profile app ∈ starredPairs →
  toggleStarredHistoryItem profile app σ
  = Some (false,
          setStarredHistoryPairs
            (filter (λ pair, pair ≠ getHistoryPairKey profile app) starredPairs) σ).
Proof.
  intros Hp Hin. unfold toggleStarredHistoryItem. rewrite Hp. simpl.
  by rewrite bool_decide_eq_true_2.
Qed.

Lemma toggle_absent (profile app : string) (σ : LocalStorage)
    (starredPairs : list string) :
  getStarredHistoryPairs σ = Some starredPairs →
  getHistoryPairKey profile app ∉ starredPairs →
  toggleStarredHistoryItem profile app σ
  = Some (true,
          setStarredHistoryPairs (starredPairs ++ [getHistoryPairKey profile app]) σ).
Proof.
  intros Hp Hin. unfold toggleStarredHistoryItem. rewrite Hp. simpl.
  by rewrite bool_decide_eq_false_2.
Qed.

(** C4. [toggleStarredHistoryItem] removes the pair's key and returns
    [false] when the key is starred, appends it and returns [true] when it
    is not; two calls in a row give opposite answers and leave every pair
    starred exactly when it was starred before. *)
Theorem toggleStarredHistoryItem_spec (profile app : string) (σ : LocalStorage)
    (starredPairs : list string) :
  getStarredHistoryPairs σ = Some starredPairs →
  let key := getHistoryPairKey profile app in
  (key ∈ starredPairs →
     toggleStarredHistoryItem profile app σ
     = Some (false, setStarredHistoryPairs (filter (λ pair, pair ≠ key) starredPairs) σ)
     ∧ key ∉ filter (λ pair, pair ≠ key) starredPairs)
  ∧ (key ∉ starredPairs →
       toggleStarredHistoryItem profile app σ
       = Some (true, setStarredHistoryPairs (starredPairs ++ [key]) σ)
       ∧ key ∈ starredPairs ++ [key])
  ∧ (∃ b1 σ1 b2 σ2,
       toggleStarredHistoryItem profile app σ = Some (b1, σ1)
       ∧ toggleStarredHistoryItem profile app σ1 = Some (b2, σ2)
       ∧ b2 = negb b1
       ∧ ∀ profile' app',
           isHistoryItemStarred profile' app' σ2 = isHistoryItemStarred profile' app' σ).
Proof.
  intros Hp key. split; [|split].
  - intros Hin. split; [by apply toggle_present|].
    rewrite list_elem_of_filter. tauto.
  - intros Hout. split; [by apply toggle_absent|].
    apply elem_of_app. right. by apply list_elem_of_singleton.
  - destruct (decide (key ∈ starredPairs)) as [Hin|Hout].
    + set (removed := filter (λ pair, pair ≠ key) starredPairs).
      assert (Hgone : key ∉ removed)
        by (unfold removed; rewrite list_elem_of_filter; tauto).
      eexists false, _, true, _.
      split; [by apply toggle_present|].
      split; [apply (toggle_absent _ _ _ removed);
              [apply getStarredHistoryPairs_set | done]|].
      split; [done|].
      intros profile' app'.
      rewrite (isHistoryItemStarred_stored _ _ _ (removed ++ [key]))
        by apply getStarredHistoryPairs_set.
      rewrite (isHistoryItemStarred_stored _ _ _ starredPairs) by done.
      f_equal. apply bool_decide_ext.
      unfold removed. rewrite elem_of_app, list_elem_of_filter, list_elem_of_singleton.
      fold key. destruct (decide (getHistoryPairKey profile' app' = key)) as [->|?];
        tauto.
    + set (added := starredPairs ++ [key]).
      assert (Hnow : key ∈ added).
      { apply elem_of_app. right. by apply list_elem_of_singleton. }
      eexists true, _, false, _.
      split; [by apply toggle_absent|].
      split; [apply (toggle_present _ _ _ added);
              [apply getStarredHistoryPairs_set | done]|].
      split; [done|].
      intros profile' app'.
      rewrite (isHistoryItemStarred_stored _ _ _ (filter (λ pair, pair ≠ key) added))
        by apply getStarredHistoryPairs_set.
      rewrite (isHistoryItemStarred_stored _ _ _ starredPairs) by done.
      f_equal. apply bool_decide_ext.
      unfold added. rewrite list_elem_of_filter, elem_of_app, list_elem_of_singleton.
      destruct (decide (getHistoryPairKey profile' app' = key)) as [Heq|?].
      * rewrite Heq. tauto.
      * tauto.
Qed.

(** ** Normalised pair keys *)

(** C8 (as amended). [getHistoryPairKey] trims both arguments, strips one
    leading "@" from the trimmed profile and lowercases both. Take two
    inputs and remove the white space around their profiles and apps. The
    key stores the profiles alike exactly when they name the same handle:
    they are equal up to letter case, or one is the other with one "@"
    before it, the other having no leading "@" itself. It stores the apps
    alike exactly when they are equal up to letter case. Two inputs that
    agree in this way have the same key, and so get the same answer from
    [isHistoryItemStarred] and [toggleStarredHistoryItem] in every store. *)
Theorem normalised_inputs_agree (c c' a a' profile profile' app app' : string) :
  tight c → padded c profile →
  tight c' → padded c' profile' →
  tight a → padded a app →
  tight a' → padded a' app' →
  getHistoryPairKey profile app
  = JsString.toLowerCase a +:+ "::" +:+ JsString.toLowerCase (toolProfile c)
  ∧ (normalizeProfile profile = normalizeProfile profile' ↔ sameHandle c c')
  ∧ (normalizeApp app = normalizeApp app' ↔ sameUpToCase a a')
  ∧ (sameHandle c c' → sameUpToCase a a' →
     getHistoryPairKey profile app = getHistoryPairKey profile' app'
     ∧ ∀ σ : LocalStorage,
         isHistoryItemStarred profile app σ = isHistoryItemStarred profile' app' σ
         ∧ toggleStarredHistoryItem profile app σ
           = toggleStarredHistoryItem profile' app' σ).
Proof.
  intros Hc Hp Hc' Hp' Ha Happ Ha' Happ'.
  assert (Hprofile : normalizeProfile profile = normalizeProfile profile'
                     ↔ sameHandle c c').
  { rewrite (normalizeProfile_padded c profile), (normalizeProfile_padded c' profile')
      by done.
    symmetry. apply sameHandle_iff. }
  split.
  { unfold getHistoryPairKey.
    by rewrite (normalizeApp_padded a app), (normalizeProfile_padded c profile). }
  split; [done|]. split.
  { by rewrite (normalizeApp_padded a app), (normalizeApp_padded a' app'). }
  intros Hsame Hcase.
  assert (Heq : getHistoryPairKey profile app = getHistoryPairKey profile' app').
  { unfold getHistoryPairKey.
    rewrite (normalizeApp_padded a app), (normalizeApp_padded a' app') by done.
    apply Hprofile in Hsame. by rewrite Hsame, Hcase. }
  split; [done|]. intros σ.
  unfold isHistoryItemStarred, toggleStarredHistoryItem. by rewrite Heq.
Qed.

(** On a profile with one leading "@" at most, the tool's own stripping
    of the "@" leaves the pair's key, and so its starred state in every
    store, as it is. *)
Lemma getHistoryPairKey_toolProfile (profile app : string) :
  oneLeadingAt profile →
  getHistoryPairKey (toolProfile profile) app = getHistoryPairKey profile app.
Proof.
  intros Hone. unfold getHistoryPairKey.
  by rewrite (proj2 (normalizeProfile_toolProfile profile) Hone).
Qed.

Lemma isHistoryItemStarred_toolProfile (profile app : string) (σ : LocalStorage) :
  oneLeadingAt profile →
  isHistoryItemStarred (toolProfile profile) app σ = isHistoryItemStarred profile app σ.
Proof.
  intros Hone. unfold isHistoryItemStarred.
  by rewrite getHistoryPairKey_toolProfile.
Qed.

(** ** Eviction from the usage history *)

Lemma runCalls_snoc (calls : list Call.t) (c : Call.t) (σ : LocalStorage) :
  runCalls (calls ++ [c]) σ
  = runCalls calls σ
    ≫= addToUsageHistory (Call.now c) (Call.profile c) (Call.app c) (Call.appName c).
Proof. unfold runCalls. by rewrite foldl_snoc. Qed.

(** From an empty history, a trace of calls leaves the 20 most recently
    opened pairs, the most recent first. *)
Lemma runCalls_recent (calls : list Call.t) (σ0 : LocalStorage) :
  getUsageHistory σ0 = Some [] →
  ∃ σ, runCalls calls σ0 = Some σ
       ∧ getUsageHistory σ = Some (take 20 (recent calls)).
Proof.
  intros H0. induction calls as [|c calls IH] using rev_ind.
  - by exists σ0.
  - destruct IH as (σ & Hrun & Hh).
    rewrite runCalls_snoc, Hrun. simpl.
    unfold addToUsageHistory. rewrite Hh. simpl.
    eexists. split; [done|]. rewrite getUsageHistory_setItem. f_equal.
    rewrite (slice0_take _ 20), recent_snoc. simpl. f_equal.
    apply take_filter_take, NoDup_pairs_recent.
Qed.

(** X3. A history built by calls of [addToUsageHistory] from an empty one
    holds the 20 most recently opened pairs, each pair once, the most
    recent first. *)
Theorem history_after_calls (calls : list Call.t) (σ0 : LocalStorage) :
  getUsageHistory σ0 = Some [] →
  ∃ σ history,
    runCalls calls σ0 = Some σ
    ∧ getUsageHistory σ = Some history
    ∧ history = take 20 (recent calls)
    ∧ (length history ≤ 20)%nat
    ∧ NoDup (pairOf <$> history).
Proof.
  intros H0. destruct (runCalls_recent calls σ0 H0) as (σ & Hrun & Hh).
  exists σ, (take 20 (recent calls)).
  split; [done|]. split; [done|]. split; [done|]. split.
  - rewrite length_take. lia.
  - rewrite fmap_take.
    apply (sublist_NoDup _ (pairOf <$> recent calls));
      [apply NoDup_pairs_recent | apply sublist_take].
Qed.

(** C3 (as amended). When [addToUsageHistory] is called with a new pair on
    a history of exactly 20 entries, the single entry dropped is the last
    one of the list. Every call moves its pair to the front, so in a history
    built by such calls the dropped entry is the least recently opened one:
    all the entries that stay were added or re-opened after its last
    opening. *)
Theorem eviction_drops_least_recently_opened (now : Z) (profile app appName : string)
    (σ : LocalStorage) (history : list UsageHistoryItem.t) :
  getUsageHistory σ = Some history →
  length history = 20%nat →
  Forall (otherPair profile app) history →
  ∃ kept dropped σ',
    history = kept ++ [dropped]
    ∧ addToUsageHistory now profile app appName σ = Some σ'
    ∧ getUsageHistory σ'
      = Some (UsageHistoryItem.mk profile app appName now :: kept)
    ∧ ∀ calls σ0,
        getUsageHistory σ0 = Some [] →
        runCalls calls σ0 = Some σ →
        ∃ calls1 c calls2,
          calls = calls1 ++ c :: calls2
          ∧ callItem c = dropped
          ∧ Forall (λ c', pairOf (callItem c') ≠ pairOf dropped) calls2
          ∧ ∀ item, item ∈ kept → ∃ c', c' ∈ calls2 ∧ callItem c' = item.
Proof.
  intros Hh Hlen Hfresh.
  destruct (last history) as [dropped|] eqn:Hlast;
    [|apply last_None in Hlast; by subst history].
  apply last_Some in Hlast as [kept ->].
  rewrite length_app in Hlen. simpl in Hlen.
  exists kept, dropped. eexists. split; [done|].
  split; [unfold addToUsageHistory; by rewrite Hh|].
  split.
  - rewrite getUsageHistory_setItem. f_equal.
    rewrite (slice0_take _ 20).
    replace (filter (otherPair profile app) (kept ++ [dropped])) with (kept ++ [dropped]).
    + simpl. f_equal. rewrite take_app_le by lia. apply take_ge. lia.
    + symmetry. clear -Hfresh. induction (kept ++ [dropped]) as [|x l IH]; [done|].
      apply Forall_cons in Hfresh as [Hx Hl]. by rewrite filter_cons_True, IH.
  - intros calls σ0 H0 Hrun.
    destruct (runCalls_recent calls σ0 H0) as (σ1 & Hrun1 & Hh1).
    rewrite Hrun in Hrun1. injection Hrun1 as <-.
    rewrite Hh in Hh1. injection Hh1 as Hh1.
    apply (recent_split calls kept (drop 20 (recent calls)) dropped).
    rewrite <- (take_drop 20 (recent calls)) at 1.
    by rewrite <- Hh1, <- app_assoc.
Qed.

End Store.

(** * Properties of the apps and of the history tool *)

Section ToolProperties.
Local Set Default Proof Using "Type*".
Context `{!Json (list UsageHistoryItem.t), !Json (list string),
          !Json (list AppSetting.t), !Json (list App.t)}.
Variable defaultApps : list App.t.
Variable getAppByValue : LocalStorage → string → option (option App.t).
Variable formatRelativeDate : Z → string.

(** ** App visibility *)

(** C10 (as amended). [getAllApps] returns, defaults first and then
    customs, each in their order, the apps whose value has no [AppSetting]
    entry or whose last entry is visible. An app is left out only when an
    entry with [visible = false] exists for its value; and when no value has
    two entries, an app with a visible entry is returned. *)
Theorem getAllApps_spec (σ : LocalStorage) (customApps : list App.t)
    (appSettings : list AppSetting.t) :
  getCustomApps σ = Some customApps →
  getAppSettings σ = Some appSettings →
  ∃ apps,
    getAllApps defaultApps σ = Some apps
    ∧ apps = filter (shownApp appSettings) defaultApps
             ++ filter (shownApp appSettings) customApps
    ∧ (∀ app, app ∈ defaultApps ++ customApps →
         (∀ setting, setting ∈ appSettings →
                     AppSetting.value setting ≠ App.value app) →
         app ∈ apps)
    ∧ (∀ app, app ∈ defaultApps ++ customApps → app ∉ apps →
         ∃ setting, setting ∈ appSettings
                    ∧ AppSetting.value setting = App.value app
                    ∧ AppSetting.visible setting = false)
    ∧ (NoDup (map AppSetting.value appSettings) →
       ∀ app setting, app ∈ defaultApps ++ customApps →
         setting ∈ appSettings →
         AppSetting.value setting = App.value app →
         AppSetting.visible setting = true →
         app ∈ apps).
Proof.
  intros Hc Hs.
  exists (filter (shownApp appSettings) (defaultApps ++ customApps)).
  split; [|split; [apply filter_app|]].
  - unfold getAllApps. rewrite Hc, Hs. simpl. f_equal.
    apply list_filter_iff. intros app. apply isVisible_shownApp.
  - split; [|split].
    + intros app Hin Hnone. apply list_elem_of_filter. split; [|done].
      unfold shownApp.
      destruct (lastSettingFor appSettings (App.value app)) as [setting|] eqn:Hlast;
        [|done].
      apply lastSettingFor_Some in Hlast as [Hsetting Hvalue].
      by destruct (Hnone setting Hsetting).
    + intros app Hin Hout.
      rewrite list_elem_of_filter in Hout.
      unfold shownApp in Hout.
      destruct (lastSettingFor appSettings (App.value app)) as [setting|] eqn:Hlast;
        [|by destruct Hout].
      apply lastSettingFor_Some in Hlast as [Hsetting Hvalue].
      exists setting. split; [done|]. split; [done|].
      destruct (AppSetting.visible setting); [by destruct Hout|done].
    + intros Hnd app setting Hin Hsetting Hvalue Hvisible.
      apply list_elem_of_filter. split; [|done].
      unfold shownApp.
      destruct (lastSettingFor appSettings (App.value app)) as [setting'|] eqn:Hlast.
      * apply lastSettingFor_Some in Hlast as [Hsetting' Hvalue'].
        by rewrite (NoDup_values_inj appSettings setting' setting) by congruence.
      * by destruct (lastSettingFor_None _ _ Hlast setting Hsetting).
Qed.

(** ** The history tool *)

(** C7. With action "list" (given or by default) and no limit, a non-empty
    history is listed under a header with at most 10 lines: the lines of the
    10 most recent items by timestamp (of the items that match the app
    filter, when one is given and matches an item). *)
Theorem getProfileHistory_default_limit (args : HistoryToolArgs.t)
    (σ : LocalStorage) (history : list UsageHistoryItem.t) :
  HistoryToolArgs.action args = None
    ∨ HistoryToolArgs.action args = Some action_list →
  HistoryToolArgs.limit args = None →
  getUsageHistory σ = Some history →
  history ≠ [] →
  Forall (λ item, is_Some (getAppByValue σ (UsageHistoryItem.app item))) history →
  let matching := filter (matchesFilter (HistoryToolArgs.app args)) history in
  (truthyArg (HistoryToolArgs.app args) = true → matching ≠ []) →
  ∃ shown rest lines,
    shown ++ rest ≡ₚ matching
    ∧ StronglySorted newestFirst (shown ++ rest)
    ∧ length shown = (10 `min` length matching)%nat
    ∧ Forall2 (λ item line,
                 formatHistoryLine getAppByValue formatRelativeDate σ item = Some line)
              shown lines
    ∧ (length lines ≤ 10)%nat
    ∧ getProfileHistory defaultApps getAppByValue formatRelativeDate args σ =
        (recentHeader (HistoryToolArgs.app args) +:+ JsString.newline +:+ JsString.newline
         +:+ JsString.join JsString.newline lines, σ).
Proof.
  destruct args as [action profile app limit]. simpl.
  intros Haction -> Hh Hne Happs Hmatch.
  set (matching := filter (matchesFilter app) history) in *.
  set (sorted := JsSort.sort byTimestampDesc matching).
  assert (is_Some (mapM (formatHistoryLine getAppByValue formatRelativeDate σ)
                        (take 10 sorted))) as [lines Hlines].
  { apply mapM_is_Some. apply Forall_forall. intros item Hitem.
    assert (Hin : item ∈ history).
    { apply (subseteq_take 10 sorted) in Hitem as Hitem'.
      unfold sorted in Hitem'. rewrite sort_Permutation in Hitem'.
      by apply list_elem_of_filter in Hitem' as [_ ?]. }
    rewrite Forall_forall in Happs. specialize (Happs item Hin).
    destruct Happs as [info Hinfo].
    unfold formatHistoryLine. simpl. rewrite Hinfo. simpl. by eexists. }
  exists (take 10 sorted), (drop 10 sorted), lines.
  rewrite take_drop.
  assert (Hlen : length (take 10 sorted) = (10 `min` length matching)%nat).
  { rewrite length_take. unfold sorted. by rewrite sort_length. }
  split; [apply sort_Permutation|].
  split; [apply sort_newestFirst|].
  split; [done|].
  split; [by apply mapM_Some|].
  split; [apply length_mapM in Hlines; lia|].
  assert (Hact : default action_list action = action_list)
    by (by destruct Haction as [->| ->]).
  unfold getProfileHistory, getProfileHistory_operation. simpl.
  rewrite Hact. simpl. rewrite Hh. simpl.
  rewrite bool_decide_eq_false_2 by (by destruct history).
  rewrite (app_filter_matchesFilter app history). fold matching.
  assert (Hguard : truthyArg app && bool_decide (length matching = 0%nat) = false).
  { destruct (truthyArg app) eqn:Ha; [|done]. simpl.
    apply bool_decide_eq_false_2. specialize (Hmatch eq_refl).
    by destruct matching. }
  rewrite Hguard. fold sorted.
  change (JsArray.slice0 sorted 10) with (take 10 sorted).
  unfold formatHistoryLines. rewrite Hlines. simpl.
  unfold recentHeader, truthyArg.
  destruct app as [a|]; simpl; [destruct (JsString.truthy a); simpl|]; done.
Qed.

(** ** Star and unstar on settled state *)

(** C9 (as amended). The pair is the given profile with the app the input
    resolves to. Take a profile with one leading "@" at most, or a store
    in which the profile without its first "@" is starred as the given one
    is. When the tool is called with action "star" on a pair that is
    already starred, or with action "unstar" on a pair that is not starred,
    it answers with a message that says so and returns the store as it
    was. *)
Theorem star_unstar_settled (args : HistoryToolArgs.t) (σ : LocalStorage)
    (profile app resolvedValue resolvedName : string) (starred : bool) :
  HistoryToolArgs.profile args = Some profile →
  JsString.truthy profile = true →
  HistoryToolArgs.app args = Some app →
  JsString.truthy app = true →
  resolveAppValue defaultApps app σ = Some (Some (resolvedValue, resolvedName)) →
  isHistoryItemStarred profile resolvedValue σ = Some starred →
  oneLeadingAt profile
    ∨ isHistoryItemStarred (toolProfile profile) resolvedValue σ = Some starred →
  (HistoryToolArgs.action args = Some action_star ∧ starred = true)
    ∨ (HistoryToolArgs.action args = Some action_unstar ∧ starred = false) →
  getProfileHistory defaultApps getAppByValue formatRelativeDate args σ =
    (toolLabel profile resolvedName
     +:+ (if starred then " is already starred." else " is not currently starred."),
     σ).
Proof.
  destruct args as [action profile' app' limit]. simpl.
  intros -> Hprofile -> Happ Hresolved Hgiven Hone Hsettled.
  assert (Hstarred : isHistoryItemStarred (toolProfile profile) resolvedValue σ
                     = Some starred).
  { destruct Hone as [Hone|Hlook]; [|done].
    by rewrite isHistoryItemStarred_toolProfile. }
  unfold getProfileHistory, getProfileHistory_operation. simpl.
  destruct Hsettled as [[-> ->]|[-> ->]]; simpl.
  - rewrite Hprofile, Happ. simpl. rewrite Hresolved. simpl.
    fold (toolProfile profile). rewrite Hstarred. done.
  - rewrite Hprofile, Happ. simpl. rewrite Hresolved. simpl.
    fold (toolProfile profile). rewrite Hstarred. done.
Qed.

Lemma toggleStarredHistoryItem_frame (profile app key : string)
    (σ σ' : LocalStorage) (b : bool) :
  toggleStarredHistoryItem profile app σ = Some (b, σ') →
  key ≠ STORAGE_KEYS.STARRED_HISTORY_ITEMS →
  σ' !! key = σ !! key.
Proof.
  unfold toggleStarredHistoryItem. intros Htoggle Hkey.
  destruct (getStarredHistoryPairs σ) as [pairs|]; simpl in Htoggle; [|done].
  destruct (bool_decide _); injection Htoggle as <- <-;
    by apply lookup_insert_ne.
Qed.

Lemma getProfileHistory_operation_frame (args : HistoryToolArgs.t)
    (σ σ' : LocalStorage) (message key : string) :
  getProfileHistory_operation defaultApps getAppByValue formatRelativeDate args σ
  = Some (message, σ') →
  key ≠ STORAGE_KEYS.STARRED_HISTORY_ITEMS →
  σ' !! key = σ !! key.
Proof.
  unfold getProfileHistory_operation. intros Hop Hkey.
  repeat match type of Hop with
    | Some _ = Some _ => injection Hop as <- <-
    | None = Some _ => discriminate Hop
    | (toggleStarredHistoryItem ?p ?a ?s ≫= _) = Some _ =>
        let Ht := fresh "Ht" in
        destruct (toggleStarredHistoryItem p a s) as [[? ?]|] eqn:Ht;
        simpl in Hop;
        [apply (toggleStarredHistoryItem_frame _ _ key) in Ht; [|done]|]
    | (?m ≫= _) = Some _ => destruct m; simpl in Hop
    | context [match ?x with _ => _ end] => destruct x; simpl in Hop
    end; try done.
Qed.

(** X1. Whatever the arguments and the store, the tool writes no key other
    than the starred pairs. *)
Theorem getProfileHistory_frame (args : HistoryToolArgs.t) (σ : LocalStorage)
    (key : string) :
  key ≠ STORAGE_KEYS.STARRED_HISTORY_ITEMS →
  (getProfileHistory defaultApps getAppByValue formatRelativeDate args σ).2 !! key
  = σ !! key.
Proof.
  intros Hkey. unfold getProfileHistory. simpl.
  destruct (getProfileHistory_operation _ _ _ args σ) as [[message σ']|] eqn:Hop;
    simpl; [|done].
  by apply (getProfileHistory_operation_frame args σ σ' message key).
Qed.

End ToolProperties.

(** * Further properties of the helpers *)

Lemma pair_key_split (a a' p p' : string) :
  containsColon a = false → containsColon a' = false →
  a +:+ "::" +:+ p = a' +:+ "::" +:+ p' → a = a' ∧ p = p'.
Proof.
  revert a'. induction a as [|c a IH]; intros [|c' a'] Ha Ha' Heq; simpl in *.
  - injection Heq as Heq. by subst.
  - injection Heq as Hc _. subst c'. by rewrite bool_decide_eq_true_2 in Ha'.
  - injection Heq as Hc _. subst c. by rewrite bool_decide_eq_true_2 in Ha.
  - injection Heq as Hc Heq. subst c'.
    apply orb_false_elim in Ha as [_ Ha]. apply orb_false_elim in Ha' as [_ Ha'].
    destruct (IH a' Ha Ha' Heq) as [Ha0 Hp]. by subst.
Qed.

(** X6. The pair key tells pairs apart: when the normalised apps contain no
    ":", two inputs have the same key exactly when their normalised apps and
    their normalised profiles are equal. *)
Theorem pair_key_injective (profile profile' app app' : string) :
  containsColon (normalizeApp app) = false →
  containsColon (normalizeApp app') = false →
  getHistoryPairKey profile app = getHistoryPairKey profile' app'
  ↔ normalizeApp app = normalizeApp app'
    ∧ normalizeProfile profile = normalizeProfile profile'.
Proof.
  intros Ha Ha'. unfold getHistoryPairKey. split.
  - by apply pair_key_split.
  - by intros [-> ->].
Qed.

(** With a ":" in the app the separator is ambiguous: two different pairs
    share a key. *)
Example pair_key_collision :
  getHistoryPairKey "c" "a::b" = getHistoryPairKey "b::c" "a".
Proof. vm_compute; reflexivity. Qed.

Lemma StronglySorted_sublist {A} (R : relation A) (l1 l2 : list A) :
  l1 `sublist_of` l2 → StronglySorted R l2 → StronglySorted R l1.
Proof.
  induction 1 as [|x l1 l2 Hsub IH|x l1 l2 Hsub IH]; intros Hs; [done|..].
  - apply StronglySorted_cons in Hs as [Hx Hs].
    apply StronglySorted_cons. split; [|by apply IH].
    apply Forall_forall. intros y Hy. rewrite Forall_forall in Hx.
    apply Hx. by apply (elem_of_sublist l1 l2).
  - apply StronglySorted_cons in Hs as [_ Hs]. by apply IH.
Qed.

Lemma filter_otherPair_Forall (profile app : string) (l : list UsageHistoryItem.t) :
  Forall (otherPair profile app) l → filter (otherPair profile app) l = l.
Proof.
  induction l as [|x l IH]; intros Hl; [done|].
  apply Forall_cons in Hl as [Hx Hl]. by rewrite filter_cons_True, IH.
Qed.

Lemma NoDup_pairs_sublist (l1 l2 : list UsageHistoryItem.t) :
  l1 `sublist_of` l2 → NoDup (pairOf <$> l2) → NoDup (pairOf <$> l1).
Proof.
  induction 1 as [|x l1 l2 Hsub IH|x l1 l2 Hsub IH]; [done|..];
    rewrite fmap_cons, NoDup_cons; intros [Hx Hnd]; [|by apply IH].
  rewrite fmap_cons, NoDup_cons. split; [|by apply IH].
  intros (y & Hy & Hin)%list_elem_of_fmap. apply Hx. rewrite Hy.
  apply list_elem_of_fmap_2. by apply (elem_of_sublist l1 l2).
Qed.

Lemma lookup_map {A B} (f : A → B) (l : list A) (i : nat) :
  map f l !! i = f <$> l !! i.
Proof. revert i. induction l as [|x l IH]; intros [|i]; simpl; by try apply IH. Qed.

Lemma map_renamedItem_id (now : Z) (oldProfile oldApp newProfile : string)
    (l : list UsageHistoryItem.t) :
  Forall (otherPair oldProfile oldApp) l →
  map (renamedItem now oldProfile oldApp newProfile) l = l.
Proof.
  induction l as [|x l IH]; intros Hl; [done|].
  apply Forall_cons in Hl as [Hx Hl]. simpl. rewrite IH by done.
  unfold renamedItem. by destruct (decide _).
Qed.

Lemma renamedItem_pairs (now : Z) (oldProfile oldApp newProfile : string)
    (l : list UsageHistoryItem.t) (pair : string * string) :
  pair ∈ pairOf <$> map (renamedItem now oldProfile oldApp newProfile) l →
  pair ∈ pairOf <$> l ∨ pair = (newProfile, oldApp).
Proof.
  induction l as [|x l IH]; cbn [map]; [by left|].
  rewrite !fmap_cons, !elem_of_cons. intros [->|Hin].
  - unfold renamedItem. destruct (decide _) as [[_ Ha]|_]; [|by left; left].
    right. unfold pairOf. simpl. by rewrite Ha.
  - destruct (IH Hin) as [?|?]; [by left; right|by right].
Qed.

Lemma NoDup_pairs_renamed (now : Z) (oldProfile oldApp newProfile : string)
    (l : list UsageHistoryItem.t) :
  NoDup (pairOf <$> l) →
  newProfile = oldProfile ∨ (newProfile, oldApp) ∉ pairOf <$> l →
  NoDup (pairOf <$> map (renamedItem now oldProfile oldApp newProfile) l).
Proof.
  induction l as [|x l IH]; [done|].
  rewrite fmap_cons, NoDup_cons. intros [Hx Hnd] Hnew. cbn [map].
  rewrite fmap_cons, NoDup_cons.
  destruct (decide (UsageHistoryItem.profile x = oldProfile
                    ∧ UsageHistoryItem.app x = oldApp)) as [[Hp Ha]|Hother].
  - assert (Hrest : Forall (otherPair oldProfile oldApp) l).
    { apply Forall_forall. intros y Hy. apply otherPair_pairOf. intros Heq.
      apply Hx. replace (pairOf x) with (oldProfile, oldApp)
        by (unfold pairOf; by rewrite Hp, Ha).
      rewrite <- Heq. by apply list_elem_of_fmap_2. }
    rewrite map_renamedItem_id by done. split; [|done].
    unfold renamedItem. rewrite decide_True by done.
    unfold pairOf at 1. simpl. rewrite Ha.
    destruct Hnew as [->|Hnew].
    + intros Hin. apply Hx. unfold pairOf at 1. by rewrite Hp, Ha.
    + intros Hin. apply Hnew. apply elem_of_cons. by right.
  - split.
    + unfold renamedItem at 1. rewrite decide_False by done.
      intros [Hin|Heq]%renamedItem_pairs; [done|].
      destruct Hnew as [->|Hnew].
      * apply Hother. unfold pairOf in Heq. by injection Heq.
      * apply Hnew. rewrite <- Heq. apply elem_of_cons. by left.
    + apply IH; [done|]. destruct Hnew as [?|Hnew]; [by left|right].
      intros Hin. apply Hnew. apply elem_of_cons. by right.
Qed.

Lemma filter_isStarredItem_nil (history : list UsageHistoryItem.t) :
  filter (isStarredItem []) history = [].
Proof.
  induction history as [|x l IH]; [done|].
  rewrite filter_cons_False; [done|]. unfold isStarredItem. apply not_elem_of_nil.
Qed.

Section StoreExtras.
Local Set Default Proof Using "Type*".
Context `{!Json (list UsageHistoryItem.t), !Json (list string),
          !Json (list AppSetting.t), !Json (list App.t)}.

(** What a toggle leaves in the starred list. *)
Lemma toggle_pairs (profile app : string) (σ σ' : LocalStorage) (b : bool) :
  toggleStarredHistoryItem profile app σ = Some (b, σ') →
  ∃ starredPairs starredPairs',
    getStarredHistoryPairs σ = Some starredPairs
    ∧ getStarredHistoryPairs σ' = Some starredPairs'
    ∧ b = negb (bool_decide (getHistoryPairKey profile app ∈ starredPairs))
    ∧ (getHistoryPairKey profile app ∈ starredPairs' ↔ b = true)
    ∧ ∀ key, key ≠ getHistoryPairKey profile app →
             key ∈ starredPairs' ↔ key ∈ starredPairs.
Proof.
  unfold toggleStarredHistoryItem. intros Htoggle.
  destruct (getStarredHistoryPairs σ) as [pairs|]; simpl in Htoggle; [|done].
  exists pairs.
  destruct (bool_decide (getHistoryPairKey profile app ∈ pairs)) eqn:Hin;
    injection Htoggle as <- <-; eexists;
    (split; [done|]); (split; [apply getStarredHistoryPairs_set|]);
    (split; [done|]).
  - split.
    + rewrite list_elem_of_filter. split; [by intros [? _]|done].
    + intros key Hkey. rewrite list_elem_of_filter. split; [by intros [_ ?]|done].
  - split.
    + rewrite elem_of_app, list_elem_of_singleton. split; [done|by right].
    + intros key Hkey. rewrite elem_of_app, list_elem_of_singleton.
      split; [by intros [?|?]|by left].
Qed.

(** The state after a toggle, for the proofs below. *)
Lemma toggle_returns_state (profile app : string) (σ σ' : LocalStorage) (b : bool) :
  toggleStarredHistoryItem profile app σ = Some (b, σ') →
  isHistoryItemStarred profile app σ' = Some b
  ∧ isHistoryItemStarred profile app σ = Some (negb b)
  ∧ (∀ key, key ≠ STORAGE_KEYS.STARRED_HISTORY_ITEMS → σ' !! key = σ !! key).
Proof.
  intros Htoggle.
  destruct (toggle_pairs _ _ _ _ _ Htoggle) as (pairs & pairs' & Hp & Hp' & Hb & Hkey & _).
  split; [|split].
  - rewrite (isHistoryItemStarred_stored _ _ _ pairs') by done. f_equal.
    destruct b.
    + apply bool_decide_eq_true_2. by apply Hkey.
    + apply bool_decide_eq_false_2. intros Hin. by apply Hkey in Hin.
  - rewrite (isHistoryItemStarred_stored _ _ _ pairs) by done. f_equal.
    rewrite Hb. by rewrite negb_involutive.
  - intros key Hne. by apply (toggleStarredHistoryItem_frame profile app key σ σ' b).
Qed.

(** X4. [toggleStarredHistoryItem] returns the new starred state of its
    pair: after a successful call [isHistoryItemStarred] answers what the
    call returned, the pairs with another key are starred as before, and no
    other storage key is written. *)
Theorem toggle_returns_new_state (profile app : string) (σ σ' : LocalStorage)
    (b : bool) :
  toggleStarredHistoryItem profile app σ = Some (b, σ') →
  isHistoryItemStarred profile app σ' = Some b
  ∧ isHistoryItemStarred profile app σ = Some (negb b)
  ∧ (∀ profile' app',
       getHistoryPairKey profile' app' ≠ getHistoryPairKey profile app →
       isHistoryItemStarred profile' app' σ' = isHistoryItemStarred profile' app' σ)
  ∧ (∀ key, key ≠ STORAGE_KEYS.STARRED_HISTORY_ITEMS → σ' !! key = σ !! key).
Proof.
  intros Htoggle.
  destruct (toggle_pairs _ _ _ _ _ Htoggle) as (pairs & pairs' & Hp & Hp' & Hb & Hkey & Hothers).
  split; [|split; [|split]].
  - rewrite (isHistoryItemStarred_stored _ _ _ pairs') by done. f_equal.
    destruct b.
    + apply bool_decide_eq_true_2. by apply Hkey.
    + apply bool_decide_eq_false_2. intros Hin. by apply Hkey in Hin.
  - rewrite (isHistoryItemStarred_stored _ _ _ pairs) by done. f_equal.
    rewrite Hb. by rewrite negb_involutive.
  - intros profile' app' Hne.
    rewrite (isHistoryItemStarred_stored _ _ _ pairs') by done.
    rewrite (isHistoryItemStarred_stored _ _ _ pairs) by done.
    f_equal. apply bool_decide_ext. by apply Hothers.
  - intros key Hne. by apply (toggleStarredHistoryItem_frame profile app key σ σ' b).
Qed.

(** X5. [clearStarredHistoryItems] needs no readable starred list: after
    it no pair is starred, the starred query is empty whenever the history
    can be read, and every other storage key is as before. *)
Theorem clearStarredHistoryItems_spec (σ : LocalStorage) :
  (∀ profile app, isHistoryItemStarred profile app (clearStarredHistoryItems σ) = Some false)
  ∧ (∀ app limit history,
       getUsageHistory σ = Some history →
       getStarredUsageHistory app limit (clearStarredHistoryItems σ) = Some [])
  ∧ (∀ key, key ≠ STORAGE_KEYS.STARRED_HISTORY_ITEMS →
            clearStarredHistoryItems σ !! key = σ !! key).
Proof.
  assert (Hp : getStarredHistoryPairs (clearStarredHistoryItems σ) = Some [])
    by apply getStarredHistoryPairs_set.
  split; [|split].
  - intros profile app. by rewrite (isHistoryItemStarred_stored _ _ _ []).
  - intros app limit history Hh.
    assert (Hh' : getUsageHistory (clearStarredHistoryItems σ) = Some history).
    { unfold getUsageHistory, Storage.getItem in *.
      unfold clearStarredHistoryItems, setStarredHistoryPairs, Storage.setItem.
      by rewrite lookup_insert_ne. }
    rewrite (getStarredUsageHistory_eq app limit _ history []) by done.
    rewrite filter_isStarredItem_nil, filter_nil. simpl.
    destruct limit as [limit|]; [|done].
    unfold JsArray.slice0. destruct (limit <? 0); by rewrite take_nil.
  - intros key Hkey. by apply lookup_insert_ne.
Qed.

Lemma getCustomApps_setItem (σ : LocalStorage) (apps : list App.t) :
  getCustomApps (Storage.setItem STORAGE_KEYS.CUSTOM_APPS (stringify apps) σ)
  = Some apps.
Proof.
  unfold getCustomApps, Storage.getItem, Storage.setItem.
  by rewrite lookup_insert_eq, stringify_truthy, parse_stringify.
Qed.

(** X7. A custom app is added at the end of the list, and removing it by
    its value gives the list back when no other custom app has that
    value. *)
Theorem custom_app_add_remove (app : App.t) (σ : LocalStorage) (apps : list App.t) :
  getCustomApps σ = Some apps →
  Forall (λ p, App.value p ≠ App.value app) apps →
  ∃ σ1 σ2,
    addCustomApp app σ = Some σ1
    ∧ getCustomApps σ1 = Some (apps ++ [app])
    ∧ removeCustomApp (App.value app) σ1 = Some σ2
    ∧ getCustomApps σ2 = Some apps.
Proof.
  intros Hc Hfresh. eexists _, _.
  split; [unfold addCustomApp; by rewrite Hc|].
  split; [apply getCustomApps_setItem|].
  split; [unfold removeCustomApp; by rewrite getCustomApps_setItem|].
  rewrite getCustomApps_setItem. f_equal.
  rewrite filter_app, filter_cons_False, filter_nil, app_nil_r by (by intros ?).
  clear Hc. induction apps as [|x l IH]; [done|].
  apply Forall_cons in Hfresh as [Hx Hl]. by rewrite filter_cons_True, IH.
Qed.

(** X8. [removeCustomApp] leaves the custom apps whose value is not the
    given one, each as often as before and in the same order; a second
    removal changes nothing; and no other storage key is written, so the
    settings, history entries and stars of the removed app stay. *)
Theorem removeCustomApp_spec (value : string) (σ : LocalStorage) (apps : list App.t) :
  getCustomApps σ = Some apps →
  ∃ σ',
    removeCustomApp value σ = Some σ'
    ∧ getCustomApps σ' = Some (filter (λ p, App.value p ≠ value) apps)
    ∧ removeCustomApp value σ' = Some σ'
    ∧ ∀ key, key ≠ STORAGE_KEYS.CUSTOM_APPS → σ' !! key = σ !! key.
Proof.
  intros Hc. eexists.
  split; [unfold removeCustomApp; by rewrite Hc|].
  split; [apply getCustomApps_setItem|].
  split.
  - unfold removeCustomApp. rewrite getCustomApps_setItem. simpl.
    rewrite list_filter_filter.
    replace (filter (λ p, App.value p ≠ value ∧ App.value p ≠ value) apps)
      with (filter (λ p, App.value p ≠ value) apps).
    + unfold Storage.setItem. by rewrite insert_insert_eq.
    + apply list_filter_iff. intros p. split; [by intros ?|by intros [? _]].
  - intros key Hkey. by apply lookup_insert_ne.
Qed.

(** X9. [removeUsageHistoryItem] leaves the entries whose profile and app
    are not both the given strings (compared as they are), each as often as
    before and in the same order, and writes no other storage key: a star on
    the pair stays. *)
Theorem removeUsageHistoryItem_spec (profile app : string) (σ : LocalStorage)
    (history : list UsageHistoryItem.t) :
  getUsageHistory σ = Some history →
  ∃ σ',
    removeUsageHistoryItem profile app σ = Some σ'
    ∧ getUsageHistory σ'
      = Some (filter (λ item, ¬ (UsageHistoryItem.profile item = profile
                                 ∧ UsageHistoryItem.app item = app)) history)
    ∧ (∀ profile' app',
         isHistoryItemStarred profile' app' σ' = isHistoryItemStarred profile' app' σ)
    ∧ ∀ key, key ≠ STORAGE_KEYS.USAGE_HISTORY → σ' !! key = σ !! key.
Proof.
  intros Hh. eexists.
  split; [unfold removeUsageHistoryItem; by rewrite Hh|].
  split; [apply getUsageHistory_setItem|].
  split.
  - intros profile' app'.
    unfold isHistoryItemStarred, getStarredHistoryPairs, Storage.getItem, Storage.setItem.
    by rewrite lookup_insert_ne.
  - intros key Hkey. by apply lookup_insert_ne.
Qed.

(** X10. Removing a pair right after adding it, the pair being new to the
    history, leaves the first 19 entries of the history: the history itself
    when it has at most 19 entries, and without its last entry when it has
    20. *)
Theorem add_then_remove (now : Z) (profile app appName : string) (σ : LocalStorage)
    (history : list UsageHistoryItem.t) :
  getUsageHistory σ = Some history →
  Forall (otherPair profile app) history →
  ∃ σ1 σ2,
    addToUsageHistory now profile app appName σ = Some σ1
    ∧ removeUsageHistoryItem profile app σ1 = Some σ2
    ∧ getUsageHistory σ2 = Some (take 19 history)
    ∧ ((length history ≤ 19)%nat → getUsageHistory σ2 = Some history).
Proof.
  intros Hh Hfresh. eexists _, _.
  split; [unfold addToUsageHistory; by rewrite Hh|].
  split; [unfold removeUsageHistoryItem; by rewrite getUsageHistory_setItem|].
  assert (Hleft :
    filter (otherPair profile app)
      (JsArray.slice0
         (UsageHistoryItem.mk profile app appName now
            :: filter (otherPair profile app) history) 20)
    = take 19 history).
  { rewrite (slice0_take _ 20).
    rewrite (filter_otherPair_Forall profile app history) by done. simpl.
    rewrite filter_cons_False by (intros Hother; by apply Hother).
    apply filter_otherPair_Forall. by apply Forall_take. }
  split.
  - rewrite getUsageHistory_setItem. by rewrite Hleft.
  - intros Hlen. rewrite getUsageHistory_setItem, Hleft. f_equal.
    by apply take_ge.
Qed.

(** X11. [updateUsageHistoryItem] renames in place: the history keeps its
    length, an entry of another pair stays where it is and as it is, an
    entry of the old pair stays where it is with the new profile, its app
    and app name and the time of the call; after a rename to another
    profile no entry has the old pair; and no other storage key is written,
    so a star stays on the old key. *)
Theorem updateUsageHistoryItem_spec (now : Z) (oldProfile oldApp newProfile : string)
    (σ : LocalStorage) (history : list UsageHistoryItem.t) :
  getUsageHistory σ = Some history →
  ∃ σ' history',
    updateUsageHistoryItem now oldProfile oldApp newProfile σ = Some σ'
    ∧ getUsageHistory σ' = Some history'
    ∧ length history' = length history
    ∧ (∀ i item, history !! i = Some item → otherPair oldProfile oldApp item →
                 history' !! i = Some item)
    ∧ (∀ i item, history !! i = Some item → ¬ otherPair oldProfile oldApp item →
                 history' !! i
                 = Some (UsageHistoryItem.mk newProfile oldApp
                           (UsageHistoryItem.appName item) now))
    ∧ (newProfile ≠ oldProfile → Forall (otherPair oldProfile oldApp) history')
    ∧ ∀ key, key ≠ STORAGE_KEYS.USAGE_HISTORY → σ' !! key = σ !! key.
Proof.
  intros Hh.
  eexists _, (map (renamedItem now oldProfile oldApp newProfile) history).
  split; [unfold updateUsageHistoryItem; by rewrite Hh|].
  split; [apply getUsageHistory_setItem|].
  split; [apply length_map|].
  split; [|split; [|split]].
  - intros i item Hi Hother. rewrite lookup_map, Hi. simpl.
    unfold renamedItem. by rewrite decide_False.
  - intros i item Hi Hsame. rewrite lookup_map, Hi. simpl.
    unfold renamedItem. unfold otherPair in Hsame.
    destruct (decide _) as [[_ Ha]|Hno]; [by rewrite Ha|].
    by destruct Hsame.
  - intros Hne. apply Forall_forall. intros item Hin.
    apply list_elem_of_In, in_map_iff in Hin as (x & <- & _).
    unfold renamedItem, otherPair.
    destruct (decide _) as [_|Hno]; [|done].
    simpl. by intros [? _].
  - intros key Hkey. by apply lookup_insert_ne.
Qed.

(** X12. The history holds each pair once, and keeps doing so: from a
    history with distinct pairs, [addToUsageHistory] and
    [removeUsageHistoryItem] leave distinct pairs, and so does
    [updateUsageHistoryItem] when the new pair is not yet in the history. *)
Theorem history_pairs_stay_distinct (now : Z) (σ : LocalStorage)
    (history : list UsageHistoryItem.t) (p a n p' : string) :
  getUsageHistory σ = Some history →
  NoDup (pairOf <$> history) →
  (∃ σ' history', addToUsageHistory now p a n σ = Some σ'
     ∧ getUsageHistory σ' = Some history' ∧ NoDup (pairOf <$> history'))
  ∧ (∃ σ' history', removeUsageHistoryItem p a σ = Some σ'
       ∧ getUsageHistory σ' = Some history' ∧ NoDup (pairOf <$> history'))
  ∧ (p' = p ∨ (p', a) ∉ pairOf <$> history →
     ∃ σ' history', updateUsageHistoryItem now p a p' σ = Some σ'
       ∧ getUsageHistory σ' = Some history' ∧ NoDup (pairOf <$> history')).
Proof.
  intros Hh Hnd. split; [|split].
  - eexists _, _. split; [unfold addToUsageHistory; by rewrite Hh|].
    split; [apply getUsageHistory_setItem|].
    rewrite (slice0_take _ 20).
    apply (NoDup_pairs_sublist _
             (UsageHistoryItem.mk p a n now :: filter (otherPair p a) history));
      [apply sublist_take|].
    rewrite fmap_cons, NoDup_cons. split; [|by apply NoDup_pairs_filter].
    intros (y & Hy & [Hother _]%list_elem_of_filter)%list_elem_of_fmap.
    apply otherPair_pairOf in Hother. by apply Hother.
  - eexists _, _. split; [unfold removeUsageHistoryItem; by rewrite Hh|].
    split; [apply getUsageHistory_setItem|]. by apply NoDup_pairs_filter.
  - intros Hnew.
    eexists _, (map (renamedItem now p a p') history).
    split; [unfold updateUsageHistoryItem; by rewrite Hh|].
    split; [apply getUsageHistory_setItem|]. by apply NoDup_pairs_renamed.
Qed.

(** X13. A history that is ordered newest first stays so: under
    [addToUsageHistory] when no entry is newer than the time of the call,
    and under [removeUsageHistoryItem] always. *)
Theorem history_stays_newest_first (now : Z) (σ : LocalStorage)
    (history : list UsageHistoryItem.t) (p a n : string) :
  getUsageHistory σ = Some history →
  StronglySorted newestFirst history →
  Forall (λ item, UsageHistoryItem.timestamp item ≤ now) history →
  (∃ σ' history', addToUsageHistory now p a n σ = Some σ'
     ∧ getUsageHistory σ' = Some history' ∧ StronglySorted newestFirst history')
  ∧ (∃ σ' history', removeUsageHistoryItem p a σ = Some σ'
       ∧ getUsageHistory σ' = Some history' ∧ StronglySorted newestFirst history').
Proof.
  intros Hh Hsorted Hnow.
  assert (Hfiltered : StronglySorted newestFirst (filter (otherPair p a) history))
    by (apply (StronglySorted_sublist _ _ history); [apply sublist_filter|done]).
  split.
  - eexists _, _. split; [unfold addToUsageHistory; by rewrite Hh|].
    split; [apply getUsageHistory_setItem|].
    rewrite (slice0_take _ 20).
    apply (StronglySorted_sublist _ _
             (UsageHistoryItem.mk p a n now :: filter (otherPair p a) history));
      [apply sublist_take|].
    apply StronglySorted_cons. split; [|done].
    apply Forall_forall. intros item [_ Hin]%list_elem_of_filter.
    rewrite Forall_forall in Hnow. by apply Hnow.
  - eexists _, _. split; [unfold removeUsageHistoryItem; by rewrite Hh|].
    split; [apply getUsageHistory_setItem|done].
Qed.

(** X14. On a history that is ordered newest first the sort changes
    nothing (it is stable): the starred query returns the starred matching
    entries in their stored order, cut to the limit. *)
Theorem starred_query_keeps_stored_order (app : option string) (limit : Z)
    (σ : LocalStorage) (history : list UsageHistoryItem.t) (starredPairs : list string) :
  getUsageHistory σ = Some history →
  getStarredHistoryPairs σ = Some starredPairs →
  StronglySorted newestFirst history →
  0 ≤ limit →
  getStarredUsageHistory app (Some limit) σ
  = Some (take (Z.to_nat limit)
            (filter (matchesFilter app) (filter (isStarredItem starredPairs) history)))
  ∧ getStarredUsageHistory app None σ
    = Some (filter (matchesFilter app) (filter (isStarredItem starredPairs) history)).
Proof.
  intros Hh Hp Hsorted Hlimit.
  rewrite !(getStarredUsageHistory_eq app _ σ history starredPairs) by done.
  simpl. rewrite sort_sorted_id.
  - by rewrite slice0_nonneg.
  - apply (StronglySorted_sublist _ _ (filter (isStarredItem starredPairs) history));
      [apply sublist_filter|].
    apply (StronglySorted_sublist _ _ history); [apply sublist_filter|done].
Qed.

(** X24. Stars go by the normalised key, the history by the strings as
    they are: every history entry whose pair has the key of the toggled pair
    (the same pair written with other letter case, an "@" or white space)
    is listed as starred after a toggle that returns [true], and not listed
    after one that returns [false]. *)
Theorem star_is_shared_by_key (profile app : string) (σ σ' : LocalStorage) (b : bool)
    (history : list UsageHistoryItem.t) :
  toggleStarredHistoryItem profile app σ = Some (b, σ') →
  getUsageHistory σ = Some history →
  ∃ starredHistory,
    getStarredUsageHistory None None σ' = Some starredHistory
    ∧ ∀ item, item ∈ history →
        getHistoryPairKey (UsageHistoryItem.profile item) (UsageHistoryItem.app item)
        = getHistoryPairKey profile app →
        (item ∈ starredHistory ↔ b = true).
Proof.
  intros Htoggle Hh.
  destruct (toggle_pairs _ _ _ _ _ Htoggle) as (pairs & pairs' & Hp & Hp' & Hb & Hkey & _).
  assert (Hh' : getUsageHistory σ' = Some history).
  { rewrite <- Hh. unfold getUsageHistory, Storage.getItem.
    by rewrite (toggleStarredHistoryItem_frame profile app _ σ σ' b Htoggle). }
  rewrite (getStarredUsageHistory_eq None None σ' history pairs') by done.
  eexists. split; [done|].
  intros item Hin Hsame.
  rewrite sort_Permutation, !list_elem_of_filter.
  unfold isStarredItem. rewrite Hsame, Hkey. simpl.
  split; [by intros (_ & ? & _)|done].
Qed.

(** X25. The starred query only selects: whatever the filter and the limit
    (also a negative one), every item it returns is an entry of the usage
    history whose key is starred and that matches the filter, and it
    returns no more items than the history holds. A starred pair that is
    not in the history is not listed. *)
Theorem starred_query_selects (app : option string) (limit : option Z)
    (σ : LocalStorage) (history : list UsageHistoryItem.t) (starredPairs : list string) :
  getUsageHistory σ = Some history →
  getStarredHistoryPairs σ = Some starredPairs →
  ∃ starredHistory,
    getStarredUsageHistory app limit σ = Some starredHistory
    ∧ (length starredHistory ≤ length history)%nat
    ∧ ∀ item, item ∈ starredHistory →
        item ∈ history ∧ isStarredItem starredPairs item ∧ matchesFilter app item.
Proof.
  intros Hh Hp.
  rewrite (getStarredUsageHistory_eq app limit σ history starredPairs) by done.
  set (selected := filter (matchesFilter app) (filter (isStarredItem starredPairs) history)).
  set (sorted := JsSort.sort byTimestampDesc selected).
  assert (Hsub : ∃ n, match limit with
                      | Some limit => JsArray.slice0 sorted limit
                      | None => sorted
                      end = take n sorted).
  { destruct limit as [limit|].
    - unfold JsArray.slice0. destruct (limit <? 0); by eexists.
    - exists (length sorted). by rewrite take_ge. }
  destruct Hsub as [n Hn]. eexists. split; [done|]. simpl. rewrite Hn. split.
  - rewrite length_take. unfold sorted. rewrite sort_length. unfold selected.
    pose proof (length_filter (matchesFilter app)
                  (filter (isStarredItem starredPairs) history)).
    pose proof (length_filter (isStarredItem starredPairs) history). lia.
  - intros item Hin. apply (subseteq_take n sorted) in Hin.
    unfold sorted in Hin. rewrite sort_Permutation in Hin. unfold selected in Hin.
    apply list_elem_of_filter in Hin as [Hmatch Hin].
    apply list_elem_of_filter in Hin as [Hstar Hin]. done.
Qed.

End StoreExtras.

(** * Further properties of the apps and of the history tool *)

Lemma find_first {A} (f : A → bool) (l : list A) (m : A) :
  List.find f l = Some m →
  ∃ l1 l2, l = l1 ++ m :: l2 ∧ f m = true ∧ Forall (λ x, f x = false) l1.
Proof.
  induction l as [|x l IH]; simpl; [done|].
  destruct (f x) eqn:Hx.
  - intros [= ->]. by exists [], l.
  - intros Hfind. destruct (IH Hfind) as (l1 & l2 & -> & Hm & Hl1).
    exists (x :: l1), l2. split; [done|]. split; [done|]. by constructor.
Qed.

Lemma find_app_Some {A} (f : A → bool) (l l' : list A) (m : A) :
  List.find f l = Some m → List.find f (l ++ l') = Some m.
Proof.
  induction l as [|x l IH]; simpl; [done|]. destruct (f x); [done|apply IH].
Qed.

Section ToolExtras.
Local Set Default Proof Using "Type*".
Context `{!Json (list UsageHistoryItem.t), !Json (list string),
          !Json (list AppSetting.t), !Json (list App.t)}.
Variable defaultApps : list App.t.
Variable getAppByValue : LocalStorage → string → option (option App.t).
Variable formatRelativeDate : Z → string.

Lemma getAllApps_filter (σ : LocalStorage) (customApps : list App.t)
    (appSettings : list AppSetting.t) :
  getCustomApps σ = Some customApps →
  getAppSettings σ = Some appSettings →
  getAllApps defaultApps σ
  = Some (filter (shownApp appSettings) (defaultApps ++ customApps)).
Proof.
  intros Hc Hs. unfold getAllApps. rewrite Hc, Hs. simpl. f_equal.
  apply list_filter_iff. intros app. apply isVisible_shownApp.
Qed.

Lemma getAllApps_readable (σ : LocalStorage) (apps : list App.t) :
  getAllApps defaultApps σ = Some apps →
  ∃ customApps appSettings,
    getCustomApps σ = Some customApps ∧ getAppSettings σ = Some appSettings.
Proof.
  unfold getAllApps. intros Hall.
  destruct (getCustomApps σ) as [customApps|]; [|done].
  destruct (getAppSettings σ) as [appSettings|]; [|done].
  by exists customApps, appSettings.
Qed.

Lemma resolveAppValue_find (inputApp : string) (σ : LocalStorage) (apps : list App.t) :
  getAllApps defaultApps σ = Some apps →
  resolveAppValue defaultApps inputApp σ
  = Some (match List.find (namesApp inputApp) apps with
          | Some m => Some (App.value m, App.name m)
          | None => None
          end).
Proof. intros Hall. unfold resolveAppValue. by rewrite Hall. Qed.

(** X15. [getAllApps] only hides: its result is [getAllAppsUnfiltered]'s
    (the defaults, then the custom apps) with apps left out in place, and
    nothing is left out when there is no setting or every setting is
    visible. *)
Theorem getAllApps_hides_only (σ : LocalStorage) (customApps : list App.t)
    (appSettings : list AppSetting.t) :
  getCustomApps σ = Some customApps →
  getAppSettings σ = Some appSettings →
  ∃ apps,
    getAllApps defaultApps σ = Some apps
    ∧ getAllAppsUnfiltered defaultApps σ = Some (defaultApps ++ customApps)
    ∧ apps `sublist_of` defaultApps ++ customApps
    ∧ (Forall (λ setting, AppSetting.visible setting = true) appSettings →
       apps = defaultApps ++ customApps).
Proof.
  intros Hc Hs. eexists.
  split; [by apply getAllApps_filter|].
  split; [unfold getAllAppsUnfiltered; by rewrite Hc|].
  split; [apply sublist_filter|].
  intros Hvisible.
  induction (defaultApps ++ customApps) as [|x l IH]; [done|].
  rewrite filter_cons_True, IH; [done|].
  unfold shownApp.
  destruct (lastSettingFor appSettings (App.value x)) as [setting|] eqn:Hlast; [|done].
  apply lastSettingFor_Some in Hlast as [Hin _].
  rewrite Forall_forall in Hvisible. by apply Hvisible.
Qed.

(** X16. [resolveAppValue] answers with the first visible app, defaults
    before customs, that the input names by its value or its name; it
    answers [null] exactly when the input names no visible app. *)
Theorem resolveAppValue_spec (inputApp : string) (σ : LocalStorage)
    (apps : list App.t) :
  getAllApps defaultApps σ = Some apps →
  (resolveAppValue defaultApps inputApp σ = Some None
   ↔ Forall (λ app, namesApp inputApp app = false) apps)
  ∧ (∀ value name,
       resolveAppValue defaultApps inputApp σ = Some (Some (value, name)) →
       ∃ before m after,
         apps = before ++ m :: after
         ∧ namesApp inputApp m = true
         ∧ Forall (λ app, namesApp inputApp app = false) before
         ∧ value = App.value m ∧ name = App.name m).
Proof.
  intros Hall. rewrite (resolveAppValue_find inputApp σ apps) by done.
  destruct (List.find (namesApp inputApp) apps) as [m|] eqn:Hfind.
  - split.
    + split; [done|]. intros Hnone.
      apply find_some in Hfind as [Hin Hm].
      rewrite Forall_forall in Hnone.
      apply list_elem_of_In in Hin. apply Hnone in Hin. congruence.
    + intros value name [= <- <-].
      apply find_first in Hfind as (l1 & l2 & -> & Hm & Hl1).
      by exists l1, m, l2.
  - split; [|done]. split; [|done]. intros _.
    apply Forall_forall. intros app Hin.
    apply (find_none _ _ Hfind). by apply list_elem_of_In.
Qed.

(** X17. Adding a custom app never changes what an input resolves to: the
    new app goes to the end of the list, behind every app that the input
    already named, also when it has the value or the name of one of
    them. *)
Theorem addCustomApp_keeps_resolution (app : App.t) (inputApp : string)
    (σ σ' : LocalStorage) (resolved : string * string) :
  resolveAppValue defaultApps inputApp σ = Some (Some resolved) →
  addCustomApp app σ = Some σ' →
  resolveAppValue defaultApps inputApp σ' = Some (Some resolved).
Proof.
  intros Hres Hadd.
  destruct (getAllApps defaultApps σ) as [apps|] eqn:Hall;
    [|unfold resolveAppValue in Hres; by rewrite Hall in Hres].
  destruct (getAllApps_readable σ apps Hall) as (customApps & appSettings & Hc & Hs).
  unfold addCustomApp in Hadd. rewrite Hc in Hadd. injection Hadd as <-.
  assert (Hs' : getAppSettings
                  (Storage.setItem STORAGE_KEYS.CUSTOM_APPS
                     (stringify (customApps ++ [app])) σ) = Some appSettings).
  { rewrite <- Hs. unfold getAppSettings, Storage.getItem, Storage.setItem.
    by rewrite lookup_insert_ne. }
  rewrite (getAllApps_filter σ customApps appSettings) in Hall by done.
  injection Hall as <-.
  rewrite (resolveAppValue_find inputApp σ _ (getAllApps_filter σ _ _ Hc Hs)) in Hres.
  rewrite (resolveAppValue_find inputApp _ _
             (getAllApps_filter _ _ _ (getCustomApps_setItem σ _) Hs')).
  rewrite app_assoc, filter_app.
  destruct (List.find (namesApp inputApp)
              (filter (shownApp appSettings) (defaultApps ++ customApps)))
    as [m|] eqn:Hfind; [|done].
  by rewrite (find_app_Some _ _ _ m Hfind).
Qed.

Lemma resolveAppValue_frame (inputApp : string) (σ σ' : LocalStorage) :
  σ' !! STORAGE_KEYS.CUSTOM_APPS = σ !! STORAGE_KEYS.CUSTOM_APPS →
  σ' !! STORAGE_KEYS.APP_SETTINGS = σ !! STORAGE_KEYS.APP_SETTINGS →
  resolveAppValue defaultApps inputApp σ' = resolveAppValue defaultApps inputApp σ.
Proof.
  intros Hc Hs.
  unfold resolveAppValue, getAllApps, getCustomApps, getAppSettings, Storage.getItem.
  by rewrite Hc, Hs.
Qed.

(** The star and unstar path of the tool, once the arguments are there,
    the app resolves and the starred state is read. *)
Lemma star_operation_eq (args : HistoryToolArgs.t) (σ : LocalStorage)
    (profile app resolvedValue resolvedName : string) (isStarred : bool) :
  HistoryToolArgs.action args = Some action_star
    ∨ HistoryToolArgs.action args = Some action_unstar →
  HistoryToolArgs.profile args = Some profile →
  JsString.truthy profile = true →
  HistoryToolArgs.app args = Some app →
  JsString.truthy app = true →
  resolveAppValue defaultApps app σ = Some (Some (resolvedValue, resolvedName)) →
  isHistoryItemStarred (toolProfile profile) resolvedValue σ = Some isStarred →
  getProfileHistory_operation defaultApps getAppByValue formatRelativeDate args σ
  = let star := bool_decide (HistoryToolArgs.action args = Some action_star) in
    if star && isStarred then
      Some (toolLabel profile resolvedName +:+ " is already starred.", σ)
    else if negb star && negb isStarred then
      Some (toolLabel profile resolvedName +:+ " is not currently starred.", σ)
    else
      toggled ← toggleStarredHistoryItem (toolProfile profile) resolvedValue σ;
      Some (if star
            then "Starred " +:+ toolLabel profile resolvedName +:+ "."
            else "Unstarred " +:+ toolLabel profile resolvedName +:+ ".",
            toggled.2).
Proof.
  destruct args as [action profile' app' limit]. simpl.
  intros Haction -> Hprofile -> Happ Hresolved Hstarred.
  unfold getProfileHistory_operation. simpl.
  destruct Haction as [->| ->]; simpl;
    rewrite Hprofile, Happ; simpl; rewrite Hresolved; simpl;
    fold (toolProfile profile); rewrite Hstarred; simpl;
    fold (toolLabel profile resolvedName); by destruct isStarred.
Qed.

(** X18. Take a profile with one leading "@" at most, and as the pair the
    given profile with the app the input resolves to. A "star" of a pair
    that is not starred, and an "unstar" of a pair that is starred, change
    the starred state of the pair and say so; the same call again finds the
    state settled, answers with the "already starred" or "not currently
    starred" message and writes nothing. *)
Theorem star_unstar_toggles_once (args : HistoryToolArgs.t) (σ : LocalStorage)
    (profile app resolvedValue resolvedName : string) (starred : bool) :
  HistoryToolArgs.profile args = Some profile →
  JsString.truthy profile = true →
  oneLeadingAt profile →
  HistoryToolArgs.app args = Some app →
  JsString.truthy app = true →
  resolveAppValue defaultApps app σ = Some (Some (resolvedValue, resolvedName)) →
  isHistoryItemStarred profile resolvedValue σ = Some starred →
  HistoryToolArgs.action args
  = Some (if starred then action_unstar else action_star) →
  ∃ σ',
    getProfileHistory defaultApps getAppByValue formatRelativeDate args σ
    = ((if starred then "Unstarred " else "Starred ")
       +:+ toolLabel profile resolvedName +:+ ".", σ')
    ∧ isHistoryItemStarred profile resolvedValue σ' = Some (negb starred)
    ∧ (∀ key, key ≠ STORAGE_KEYS.STARRED_HISTORY_ITEMS → σ' !! key = σ !! key)
    ∧ getProfileHistory defaultApps getAppByValue formatRelativeDate args σ'
      = (toolLabel profile resolvedName
         +:+ (if starred then " is not currently starred." else " is already starred."),
         σ').
Proof.
  intros Hprofile Hp Hone Happ Ha Hresolved Hstarred Haction.
  rewrite <- isHistoryItemStarred_toolProfile in Hstarred by done.
  assert (Hact : HistoryToolArgs.action args = Some action_star
                 ∨ HistoryToolArgs.action args = Some action_unstar)
    by (rewrite Haction; destruct starred; [by right|by left]).
  destruct (toggleStarredHistoryItem (toolProfile profile) resolvedValue σ)
    as [[b σ']|] eqn:Htoggle.
  2:{ unfold toggleStarredHistoryItem in Htoggle.
      unfold isHistoryItemStarred in Hstarred.
      destruct (getStarredHistoryPairs σ); simpl in *; [|done].
      by destruct (bool_decide _). }
  destruct (toggle_returns_state (toolProfile profile) resolvedValue σ σ' b Htoggle)
    as (Hnew & Hold & Hframe).
  rewrite Hstarred in Hold. injection Hold as Hb.
  assert (Hb' : b = negb starred) by (rewrite Hb; by rewrite negb_involutive).
  exists σ'. split; [|split; [|split; [done|]]].
  - unfold getProfileHistory.
    rewrite (star_operation_eq args σ profile app resolvedValue resolvedName starred)
      by done.
    rewrite Haction, Htoggle. by destruct starred.
  - rewrite <- isHistoryItemStarred_toolProfile by done. by rewrite Hnew, Hb'.
  - unfold getProfileHistory.
    rewrite (star_operation_eq args σ' profile app resolvedValue resolvedName
               (negb starred)); [|done..| |by rewrite Hnew, Hb'].
    + rewrite Haction. by destruct starred.
    + rewrite <- Hresolved. apply resolveAppValue_frame; by apply Hframe.
Qed.

(** X19. "star" and "unstar" without a profile or without an app (missing
    or empty) answer with the request for both and return the store as it
    is; the store is not read, so this holds for every store. *)
Theorem star_unstar_needs_both (args : HistoryToolArgs.t) (σ : LocalStorage) :
  HistoryToolArgs.action args = Some action_star
    ∨ HistoryToolArgs.action args = Some action_unstar →
  truthyArg (HistoryToolArgs.profile args) = false
    ∨ truthyArg (HistoryToolArgs.app args) = false →
  getProfileHistory defaultApps getAppByValue formatRelativeDate args σ
  = ("To star or unstar, provide both profile and app.", σ).
Proof.
  destruct args as [action profile app limit]. simpl.
  intros Haction Hmissing.
  unfold getProfileHistory, getProfileHistory_operation. simpl.
  destruct Haction as [->| ->]; simpl;
    destruct profile as [profile|], app as [app|]; simpl in *; try done;
    destruct (JsString.truthy profile), (JsString.truthy app); simpl; try done;
    by destruct Hmissing.
Qed.

(** X20. "star" and "unstar" of an app that the input does not name among
    the visible apps (unknown, or hidden by a setting) are refused with
    the "is not available" message, and nothing is written. *)
Theorem star_unstar_unavailable_app (args : HistoryToolArgs.t) (σ : LocalStorage)
    (profile app : string) (apps : list App.t) :
  HistoryToolArgs.action args = Some action_star
    ∨ HistoryToolArgs.action args = Some action_unstar →
  HistoryToolArgs.profile args = Some profile →
  JsString.truthy profile = true →
  HistoryToolArgs.app args = Some app →
  JsString.truthy app = true →
  getAllApps defaultApps σ = Some apps →
  Forall (λ item, namesApp app item = false) apps →
  getProfileHistory defaultApps getAppByValue formatRelativeDate args σ
  = ("App " +:+ JsString.dquote +:+ app +:+ JsString.dquote +:+ " is not available.", σ).
Proof.
  destruct args as [action profile' app' limit]. simpl.
  intros Haction -> Hprofile -> Happ Hall Hnone.
  assert (Hres : resolveAppValue defaultApps app σ = Some None).
  { rewrite (resolveAppValue_find app σ apps) by done.
    destruct (List.find (namesApp app) apps) as [m|] eqn:Hfind; [|done].
    apply find_some in Hfind as [Hin Hm]. rewrite Forall_forall in Hnone.
    apply list_elem_of_In in Hin. apply Hnone in Hin. congruence. }
  unfold getProfileHistory, getProfileHistory_operation. simpl.
  destruct Haction as [->| ->]; simpl;
    rewrite Hprofile, Happ; simpl; by rewrite Hres.
Qed.

(** The listing path of the tool on a history with an entry to show. *)
Lemma list_operation_eq (args : HistoryToolArgs.t) (σ : LocalStorage)
    (history : list UsageHistoryItem.t) :
  HistoryToolArgs.action args = None
    ∨ HistoryToolArgs.action args = Some action_list →
  getUsageHistory σ = Some history →
  getProfileHistory_operation defaultApps getAppByValue formatRelativeDate args σ
  = let app := HistoryToolArgs.app args in
    let matching := filter (matchesFilter app) history in
    if bool_decide (history = []) then Some ("No profile history found.", σ)
    else if truthyArg app && bool_decide (matching = []) then
      Some ("No profiles were recently opened on " +:+ default "" app +:+ ".", σ)
    else
      historyLines ← formatHistoryLines getAppByValue formatRelativeDate
                        (JsArray.slice0 (JsSort.sort byTimestampDesc matching)
                           (default 10 (HistoryToolArgs.limit args))) σ;
      Some (recentHeader app +:+ JsString.newline +:+ JsString.newline
            +:+ JsString.join JsString.newline historyLines, σ).
Proof.
  destruct args as [action profile app limit]. simpl.
  intros Haction Hh.
  assert (Hact : default action_list action = action_list)
    by (by destruct Haction as [->| ->]).
  unfold getProfileHistory_operation. simpl. rewrite Hact. simpl. rewrite Hh. simpl.
  rewrite (app_filter_matchesFilter app history).
  destruct history as [|x history]; [done|].
  rewrite (bool_decide_eq_false_2 (length (x :: history) = 0%nat)) by done.
  rewrite (bool_decide_eq_false_2 (x :: history = [])) by done.
  set (matching := filter (matchesFilter app) (x :: history)).
  replace (bool_decide (length matching = 0%nat)) with (bool_decide (matching = []))
    by (by destruct matching).
  destruct (truthyArg app && bool_decide (matching = [])); [done|].
  unfold recentHeader, truthyArg.
  destruct app as [a|]; simpl; [destruct (JsString.truthy a)|]; done.
Qed.

(** X21. Listing an empty history answers "No profile history found.",
    whatever the app filter and the limit; a filter that matches no entry
    of a non-empty history answers that no profiles were recently opened on
    that app. Neither writes. *)
Theorem list_without_entries (args : HistoryToolArgs.t) (σ : LocalStorage)
    (history : list UsageHistoryItem.t) :
  HistoryToolArgs.action args = None
    ∨ HistoryToolArgs.action args = Some action_list →
  getUsageHistory σ = Some history →
  (history = [] →
   getProfileHistory defaultApps getAppByValue formatRelativeDate args σ
   = ("No profile history found.", σ))
  ∧ (∀ app, history ≠ [] →
       HistoryToolArgs.app args = Some app →
       JsString.truthy app = true →
       Forall (λ item, ¬ matchesFilter (Some app) item) history →
       getProfileHistory defaultApps getAppByValue formatRelativeDate args σ
       = ("No profiles were recently opened on " +:+ app +:+ ".", σ)).
Proof.
  intros Haction Hh. unfold getProfileHistory.
  rewrite (list_operation_eq args σ history) by done. simpl. split.
  - intros ->. done.
  - intros app Hne Happ Ha Hnone. rewrite Happ. simpl. rewrite Ha. simpl.
    rewrite bool_decide_eq_false_2 by done.
    rewrite bool_decide_eq_true_2; [done|].
    clear Hh Hne. induction history as [|x l IH]; [done|].
    apply Forall_cons in Hnone as [Hx Hl]. by rewrite filter_cons_False, IH.
Qed.

(** X22. A limit that is a count caps the listing: with a limit
    [0 ≤ limit] the listing has at most [limit] lines, those of the first
    [limit] matching entries, newest first; with the limit 0 it is the
    header alone. *)
Theorem list_with_limit (args : HistoryToolArgs.t) (limit : Z)
    (σ : LocalStorage) (history : list UsageHistoryItem.t) :
  HistoryToolArgs.action args = None
    ∨ HistoryToolArgs.action args = Some action_list →
  HistoryToolArgs.limit args = Some limit →
  0 ≤ limit →
  getUsageHistory σ = Some history →
  history ≠ [] →
  Forall (λ item, is_Some (getAppByValue σ (UsageHistoryItem.app item))) history →
  let matching := filter (matchesFilter (HistoryToolArgs.app args)) history in
  (truthyArg (HistoryToolArgs.app args) = true → matching ≠ []) →
  ∃ lines,
    Forall2 (λ item line,
               formatHistoryLine getAppByValue formatRelativeDate σ item = Some line)
            (take (Z.to_nat limit) (JsSort.sort byTimestampDesc matching)) lines
    ∧ (Z.of_nat (length lines) ≤ limit)
    ∧ (limit = 0 → lines = [])
    ∧ getProfileHistory defaultApps getAppByValue formatRelativeDate args σ
      = (recentHeader (HistoryToolArgs.app args) +:+ JsString.newline
         +:+ JsString.newline +:+ JsString.join JsString.newline lines, σ).
Proof.
  intros Haction Hlimit Hpos Hh Hne Happs matching Hmatch.
  set (sorted := JsSort.sort byTimestampDesc matching).
  assert (is_Some (mapM (formatHistoryLine getAppByValue formatRelativeDate σ)
                        (take (Z.to_nat limit) sorted))) as [lines Hlines].
  { apply mapM_is_Some. apply Forall_forall. intros item Hitem.
    assert (Hin : item ∈ history).
    { apply (subseteq_take (Z.to_nat limit) sorted) in Hitem.
      unfold sorted in Hitem. rewrite sort_Permutation in Hitem.
      by apply list_elem_of_filter in Hitem as [_ ?]. }
    rewrite Forall_forall in Happs. specialize (Happs item Hin).
    destruct Happs as [info Hinfo].
    unfold formatHistoryLine. simpl. rewrite Hinfo. simpl. by eexists. }
  exists lines.
  split; [by apply mapM_Some|].
  assert (Hlen : length lines = length (take (Z.to_nat limit) sorted))
    by (symmetry; by apply length_mapM in Hlines).
  split; [rewrite Hlen, length_take; lia|].
  split.
  - intros ->. by destruct lines.
  - unfold getProfileHistory.
    rewrite (list_operation_eq args σ history) by done. simpl.
    rewrite bool_decide_eq_false_2 by done.
    fold matching.
    assert (Hguard : truthyArg (HistoryToolArgs.app args)
                     && bool_decide (matching = []) = false).
    { destruct (truthyArg (HistoryToolArgs.app args)) eqn:Ha; [|done]. simpl.
      apply bool_decide_eq_false_2. by apply Hmatch. }
    rewrite Hguard, Hlimit. simpl. fold sorted.
    rewrite slice0_nonneg by done.
    unfold formatHistoryLines. rewrite Hlines. simpl.
    unfold recentHeader.
    destruct (HistoryToolArgs.app args) as [a|]; simpl;
      [destruct (JsString.truthy a); simpl|]; done.
Qed.

(** X23. The starred listing of a store with no starred pair (none stored,
    or an empty list) answers "No starred profiles found.", or that none
    was found on the app when a filter is given, and writes nothing. *)
Theorem list_starred_without_stars (args : HistoryToolArgs.t) (σ : LocalStorage)
    (history : list UsageHistoryItem.t) :
  HistoryToolArgs.action args = Some action_list_starred →
  getUsageHistory σ = Some history →
  getStarredHistoryPairs σ = Some [] →
  getProfileHistory defaultApps getAppByValue formatRelativeDate args σ
  = (match HistoryToolArgs.app args with
     | Some a =>
         if JsString.truthy a
         then "No starred profiles found on " +:+ a +:+ "."
         else "No starred profiles found."
     | None => "No starred profiles found."
     end, σ).
Proof.
  destruct args as [action profile app limit]. simpl.
  intros -> Hh Hp.
  unfold getProfileHistory, getProfileHistory_operation. simpl.
  rewrite (getStarredUsageHistory_eq app _ σ history []) by done.
  rewrite filter_isStarredItem_nil, filter_nil. simpl.
  unfold JsArray.slice0. destruct (default 10 limit <? 0); rewrite take_nil; simpl;
    destruct app as [a|]; simpl; [destruct (JsString.truthy a)| |destruct (JsString.truthy a)|];
    done.
Qed.

(** X26. [updateAppSettings] replaces the settings as a whole, without
    reading the stored ones: afterwards [getAppSettings] returns the given
    list and [getAllApps] shows the defaults and custom apps by that list
    alone, the custom apps being as before. *)
Theorem updateAppSettings_takes_effect (appSettings : list AppSetting.t)
    (σ : LocalStorage) (customApps : list App.t) :
  getCustomApps σ = Some customApps →
  getAppSettings (updateAppSettings appSettings σ) = Some appSettings
  ∧ getCustomApps (updateAppSettings appSettings σ) = Some customApps
  ∧ getAllApps defaultApps (updateAppSettings appSettings σ)
    = Some (filter (shownApp appSettings) (defaultApps ++ customApps))
  ∧ (appSettings = [] →
     getAllApps defaultApps (updateAppSettings appSettings σ)
     = Some (defaultApps ++ customApps)).
Proof.
  intros Hc.
  assert (Hs : getAppSettings (updateAppSettings appSettings σ) = Some appSettings).
  { unfold getAppSettings, updateAppSettings, Storage.getItem, Storage.setItem.
    by rewrite lookup_insert_eq, stringify_truthy, parse_stringify. }
  assert (Hc' : getCustomApps (updateAppSettings appSettings σ) = Some customApps).
  { rewrite <- Hc.
    unfold getCustomApps, updateAppSettings, Storage.getItem, Storage.setItem.
    by rewrite lookup_insert_ne. }
  split; [done|]. split; [done|]. split; [by apply getAllApps_filter|].
  intros ->. rewrite (getAllApps_filter _ customApps []) by done. f_equal.
  induction (defaultApps ++ customApps) as [|x l IH]; [done|].
  by rewrite filter_cons_True, IH.
Qed.

End ToolExtras.

(** * The theorems on concrete stores

    The theorems above hold for every codec with the [Json] laws; here they
    are applied to the stores written with [Codec]. *)

(** C1 on [store2]: bob on x is opened again at time 9. *)
Lemma addToUsageHistory_spec_witness :
  getUsageHistory store2 = Some history2
  ∧ addToUsageHistory 9 "bob" "x" "X" store2
    = Some (<[STORAGE_KEYS.USAGE_HISTORY :=
                stringify [item "bob" "x" "X" 9; item "alice" "github" "GitHub" 7]]>
              store2)
  ∧ getUsageHistory
      (<[STORAGE_KEYS.USAGE_HISTORY :=
           stringify [item "bob" "x" "X" 9; item "alice" "github" "GitHub" 7]]> store2)
    = Some [item "bob" "x" "X" 9; item "alice" "github" "GitHub" 7].
Proof.
  split; [vm_compute; reflexivity|].
  apply (addToUsageHistory_spec 9 "bob" "x" "X" store2 history2).
  vm_compute; reflexivity.
Defined.

(** C2 on [store2]. *)
Lemma history_stays_bounded_witness :
  getUsageHistory store2 = Some history2
  ∧ (length history2 ≤ 20)%nat
  ∧ (∃ σ' history', addToUsageHistory 9 "carol" "x" "X" store2 = Some σ'
       ∧ getUsageHistory σ' = Some history' ∧ (length history' ≤ 20)%nat)
  ∧ (∃ σ' history', removeUsageHistoryItem "carol" "x" store2 = Some σ'
       ∧ getUsageHistory σ' = Some history' ∧ (length history' ≤ 20)%nat)
  ∧ (∃ σ' history', updateUsageHistoryItem 9 "carol" "x" "caroline" store2 = Some σ'
       ∧ getUsageHistory σ' = Some history' ∧ (length history' ≤ 20)%nat).
Proof.
  split; [vm_compute; reflexivity|].
  split; [vm_compute; lia|].
  apply (history_stays_bounded 9 store2 history2 "carol" "x" "X" "caroline").
  - vm_compute; reflexivity.
  - vm_compute; lia.
Defined.

(** C3, counterexample. "a" is the pair inserted first and "b" the second;
    "a" is re-opened before the history overflows. Adding the new pair "u"
    to the 20 entries drops "b" and keeps "a": the entry dropped is not the
    one that was first inserted. *)
Lemma eviction_not_first_inserted :
  head reopenTrace = Some (Call.mk 1 "a" "x" "X")
  ∧ runCalls reopenTrace ∅ = Some reopenStore
  ∧ getUsageHistory reopenStore = Some reopenHistory
  ∧ length reopenHistory = 20%nat
  ∧ bool_decide (Forall (otherPair "u" "x") reopenHistory) = true
  ∧ (addToUsageHistory 22 "u" "x" "X" reopenStore ≫= getUsageHistory)
    = Some (item "u" "x" "X" 22 :: take 19 reopenHistory)
  ∧ list_difference reopenHistory (take 19 reopenHistory) = [item "b" "x" "X" 2]
  ∧ bool_decide (item "a" "x" "X" 21 ∈ take 19 reopenHistory) = true.
Proof. repeat split; vm_compute; reflexivity. Qed.

(** C3 (as amended) on the store left by [reopenTrace]. *)
Lemma eviction_drops_least_recently_opened_witness :
  getUsageHistory reopenStore = Some reopenHistory
  ∧ ∃ kept dropped σ',
      reopenHistory = kept ++ [dropped]
      ∧ addToUsageHistory 22 "u" "x" "X" reopenStore = Some σ'
      ∧ getUsageHistory σ' = Some (UsageHistoryItem.mk "u" "x" "X" 22 :: kept)
      ∧ ∀ calls σ0,
          getUsageHistory σ0 = Some [] →
          runCalls calls σ0 = Some reopenStore →
          ∃ calls1 c calls2,
            calls = calls1 ++ c :: calls2
            ∧ callItem c = dropped
            ∧ Forall (λ c', pairOf (callItem c') ≠ pairOf dropped) calls2
            ∧ ∀ item, item ∈ kept → ∃ c', c' ∈ calls2 ∧ callItem c' = item.
Proof.
  split; [vm_compute; reflexivity|].
  apply (eviction_drops_least_recently_opened 22 "u" "x" "X" reopenStore reopenHistory).
  - vm_compute; reflexivity.
  - vm_compute; reflexivity.
  - apply (bool_decide_unpack (Forall (otherPair "u" "x") reopenHistory)).
    vm_compute. exact I.
Defined.

(** C4 on [starredStore]: "@Bob" on "X" has the key of bob on x. *)
Lemma toggleStarredHistoryItem_spec_witness :
  getStarredHistoryPairs starredStore = Some ["x::bob"]
  ∧ ("x::bob" ∈ ["x::bob"] →
       toggleStarredHistoryItem "@Bob" "X" starredStore
       = Some (false, setStarredHistoryPairs [] starredStore)
       ∧ "x::bob" ∉ @nil string)
  ∧ ("x::bob" ∉ ["x::bob"] →
       toggleStarredHistoryItem "@Bob" "X" starredStore
       = Some (true, setStarredHistoryPairs ["x::bob"; "x::bob"] starredStore)
       ∧ "x::bob" ∈ ["x::bob"; "x::bob"])
  ∧ (∃ b1 σ1 b2 σ2,
       toggleStarredHistoryItem "@Bob" "X" starredStore = Some (b1, σ1)
       ∧ toggleStarredHistoryItem "@Bob" "X" σ1 = Some (b2, σ2)
       ∧ b2 = negb b1
       ∧ ∀ profile' app',
           isHistoryItemStarred profile' app' σ2
           = isHistoryItemStarred profile' app' starredStore).
Proof.
  split; [vm_compute; reflexivity|].
  apply (toggleStarredHistoryItem_spec "@Bob" "X" starredStore ["x::bob"]).
  vm_compute; reflexivity.
Defined.



(** The starred query evaluated: with a limit, without one, and with the
    limit -1. *)
Example getStarredUsageHistory_example :
  getStarredUsageHistory (Some "X") (Some 1) queryStore = Some [item "carol" "x" "X" 9]
  ∧ getStarredUsageHistory None None queryStore
    = Some [item "carol" "x" "X" 9; item "bob" "x" "X" 5]
  ∧ getStarredUsageHistory None (Some (-1)) queryStore = Some [item "carol" "x" "X" 9].
Proof. repeat split; vm_compute; reflexivity. Qed.

(** C7 on [queryStore], with action "list" and no other argument. *)
Lemma getProfileHistory_default_limit_witness :
  ∃ shown rest lines,
    shown ++ rest ≡ₚ filter (matchesFilter None) history3
    ∧ StronglySorted newestFirst (shown ++ rest)
    ∧ length shown = (10 `min` length (filter (matchesFilter None) history3))%nat
    ∧ Forall2 (λ item line, formatHistoryLine noAppInfo someTimeAgo queryStore item
                            = Some line) shown lines
    ∧ (length lines ≤ 10)%nat
    ∧ getProfileHistory [] noAppInfo someTimeAgo
        (HistoryToolArgs.mk (Some action_list) None None None) queryStore
      = (recentHeader None +:+ JsString.newline +:+ JsString.newline
         +:+ JsString.join JsString.newline lines, queryStore).
Proof.
  apply (getProfileHistory_default_limit [] noAppInfo someTimeAgo
           (HistoryToolArgs.mk (Some action_list) None None None) queryStore history3).
  - right; reflexivity.
  - reflexivity.
  - vm_compute; reflexivity.
  - discriminate.
  - repeat constructor; by eexists.
  - discriminate.
Defined.

(** The listing evaluated, with no argument at all. *)
Example getProfileHistory_example :
  (getProfileHistory [] noAppInfo someTimeAgo
     (HistoryToolArgs.mk None None None None) queryStore).1
  = "Recently opened profiles:" +:+ JsString.newline +:+ JsString.newline
    +:+ "• carol on X (some time ago)" +:+ JsString.newline
    +:+ "• alice on GitHub (some time ago)" +:+ JsString.newline
    +:+ "• bob on X (some time ago)".
Proof. vm_compute; reflexivity. Qed.

(** C8, counterexample. "@@bob" and "@bob" agree up to a leading "@" on
    the profile: the first is the second with a "@" before it. With bob on
    x starred, [isHistoryItemStarred] and [toggleStarredHistoryItem] answer
    differently for the two: only one "@" is stripped. *)
Lemma agreeing_profiles_differ :
  "@@bob" = "@" +:+ "@bob"
  ∧ isHistoryItemStarred "@bob" "x" starredStore = Some true
  ∧ isHistoryItemStarred "@@bob" "x" starredStore = Some false
  ∧ fst <$> toggleStarredHistoryItem "@bob" "x" starredStore = Some false
  ∧ fst <$> toggleStarredHistoryItem "@@bob" "x" starredStore = Some true.
Proof. repeat split; vm_compute; reflexivity. Qed.

(** White space after the "@" is part of the name as well: "@ bob" is not
    the starred bob. *)
Example space_after_at_is_kept :
  getHistoryPairKey "@ bob" "x" = "x:: bob"
  ∧ isHistoryItemStarred "bob" "x" starredStore = Some true
  ∧ isHistoryItemStarred "@ bob" "x" starredStore = Some false.
Proof. repeat split; vm_compute; reflexivity. Qed.

(** C8 (as amended): " @@BOB " on " X" and "@@bob" on "x", which differ
    in letter case and outer white space. *)
Lemma normalised_inputs_agree_witness :
  getHistoryPairKey " @@BOB " " X" = "x::@bob"
  ∧ normalizeProfile " @@BOB " = normalizeProfile "@@bob"
  ∧ getHistoryPairKey " @@BOB " " X" = getHistoryPairKey "@@bob" "x"
  ∧ isHistoryItemStarred " @@BOB " " X" atNameStore
    = isHistoryItemStarred "@@bob" "x" atNameStore
  ∧ toggleStarredHistoryItem " @@BOB " " X" atNameStore
    = toggleStarredHistoryItem "@@bob" "x" atNameStore.
Proof.
  assert (Hhandle : sameHandle "@@BOB" "@@bob") by (left; vm_compute; reflexivity).
  assert (Happ : sameUpToCase "X" "x") by (vm_compute; reflexivity).
  destruct (normalised_inputs_agree "@@BOB" "@@bob" "X" "x" " @@BOB " "@@bob" " X" "x")
    as (Hkey & Hprofile & _ & Hagree).
  - repeat split; vm_compute; reflexivity.
  - exists " ", " ". repeat split; vm_compute; reflexivity.
  - repeat split; vm_compute; reflexivity.
  - exists "", "". repeat split; vm_compute; reflexivity.
  - repeat split; vm_compute; reflexivity.
  - exists " ", "". repeat split; vm_compute; reflexivity.
  - repeat split; vm_compute; reflexivity.
  - exists "", "". repeat split; vm_compute; reflexivity.
  - destruct (Hagree Hhandle Happ) as [Hsame Hstore].
    split; [exact Hkey|]. split; [by apply Hprofile|]. split; [exact Hsame|].
    exact (Hstore atNameStore).
Defined.

(** C9, counterexample. In [atNameStore] the pair of "@@bob" and x is
    starred (its key is x::@bob), and "star" for "@@bob" on "X" does not
    answer that it is: the tool strips one "@" and the key a second one, so
    the tool stars x::bob. In [starredStore] the pair is not starred, and
    "unstar" removes the star of x::bob. *)
Lemma star_strips_a_second_at :
  ¬ oneLeadingAt "@@bob"
  ∧ (resolveAppValue [appX] "X" atNameStore = Some (Some ("x", "X"))
     ∧ getStarredHistoryPairs atNameStore = Some ["x::@bob"]
     ∧ isHistoryItemStarred "@@bob" "x" atNameStore = Some true
     ∧ isHistoryItemStarred (toolProfile "@@bob") "x" atNameStore = Some false
     ∧ (getProfileHistory [appX] noAppInfo someTimeAgo
          (HistoryToolArgs.mk (Some action_star) (Some "@@bob") (Some "X") None)
          atNameStore).1
       = "Starred @@bob on X."
     ∧ getStarredHistoryPairs
         (getProfileHistory [appX] noAppInfo someTimeAgo
            (HistoryToolArgs.mk (Some action_star) (Some "@@bob") (Some "X") None)
            atNameStore).2
       = Some ["x::@bob"; "x::bob"])
  ∧ (resolveAppValue [appX] "X" starredStore = Some (Some ("x", "X"))
     ∧ getStarredHistoryPairs starredStore = Some ["x::bob"]
     ∧ isHistoryItemStarred "@@bob" "x" starredStore = Some false
     ∧ isHistoryItemStarred (toolProfile "@@bob") "x" starredStore = Some true
     ∧ (getProfileHistory [appX] noAppInfo someTimeAgo
          (HistoryToolArgs.mk (Some action_unstar) (Some "@@bob") (Some "X") None)
          starredStore).1
       = "Unstarred @@bob on X."
     ∧ getStarredHistoryPairs
         (getProfileHistory [appX] noAppInfo someTimeAgo
            (HistoryToolArgs.mk (Some action_unstar) (Some "@@bob") (Some "X") None)
            starredStore).2
       = Some []).
Proof.
  split.
  - intros Hone. by destruct (Hone eq_refl) as [[Hat _]|Hws].
  - repeat split; vm_compute; reflexivity.
Qed.

(** C9 (as amended) on [starredStore]: starring "@bob" on "X", already
    starred. *)
Lemma star_unstar_settled_witness :
  resolveAppValue [appX] "X" starredStore = Some (Some ("x", "X"))
  ∧ isHistoryItemStarred "@bob" "x" starredStore = Some true
  ∧ getProfileHistory [appX] noAppInfo someTimeAgo
      (HistoryToolArgs.mk (Some action_star) (Some "@bob") (Some "X") None) starredStore
    = ("@bob on X is already starred.", starredStore).
Proof.
  split; [vm_compute; reflexivity|].
  split; [vm_compute; reflexivity|].
  apply (star_unstar_settled [appX] noAppInfo someTimeAgo
           (HistoryToolArgs.mk (Some action_star) (Some "@bob") (Some "X") None)
           starredStore "@bob" "X" "x" "X" true).
  - reflexivity.
  - reflexivity.
  - reflexivity.
  - reflexivity.
  - vm_compute; reflexivity.
  - vm_compute; reflexivity.
  - left. intros _. left. split; vm_compute; reflexivity.
  - left. split; reflexivity.
Defined.

(** C10, counterexample. The app x has an entry with [visible = true], and
    [getAllApps] leaves it out: the later entry for x decides. *)
Lemma visible_entry_overridden :
  getCustomApps settingsStore = Some []
  ∧ getAppSettings settingsStore = Some twoSettings
  ∧ bool_decide (AppSetting.mk "x" true ∈ twoSettings) = true
  ∧ AppSetting.value (AppSetting.mk "x" true) = App.value appX
  ∧ getAllApps [appX] settingsStore = Some [].
Proof. repeat split; vm_compute; reflexivity. Qed.

(** C10 (as amended) on [settingsStore]. *)
Lemma getAllApps_spec_witness :
  getCustomApps settingsStore = Some []
  ∧ getAppSettings settingsStore = Some twoSettings
  ∧ ∃ apps,
      getAllApps [appX] settingsStore = Some apps
      ∧ apps = filter (shownApp twoSettings) [appX] ++ filter (shownApp twoSettings) []
      ∧ (∀ app, app ∈ [appX] ++ [] →
           (∀ setting, setting ∈ twoSettings →
                       AppSetting.value setting ≠ App.value app) →
           app ∈ apps)
      ∧ (∀ app, app ∈ [appX] ++ [] → app ∉ apps →
           ∃ setting, setting ∈ twoSettings
                      ∧ AppSetting.value setting = App.value app
                      ∧ AppSetting.visible setting = false)
      ∧ (NoDup (map AppSetting.value twoSettings) →
         ∀ app setting, app ∈ [appX] ++ [] →
           setting ∈ twoSettings →
           AppSetting.value setting = App.value app →
           AppSetting.visible setting = true →
           app ∈ apps).
Proof.
  split; [vm_compute; reflexivity|].
  split; [vm_compute; reflexivity|].
  apply (getAllApps_spec [appX] settingsStore [] twoSettings).
  - vm_compute; reflexivity.
  - vm_compute; reflexivity.
Defined.

(** X2 on [queryStore], with the limit -1. *)
Lemma getStarredUsageHistory_negative_limit_witness :
  ∃ sorted,
    sorted ≡ₚ filter (λ item, isStarredItem ["x::bob"; "x::carol"] item
                              ∧ matchesFilter None item) history3
    ∧ StronglySorted newestFirst sorted
    ∧ getStarredUsageHistory None (Some (-1)) queryStore
      = Some (take (length sorted - Z.to_nat (- -1)) sorted).
Proof.
  apply (getStarredUsageHistory_negative_limit None (-1) queryStore history3
           ["x::bob"; "x::carol"]).
  - vm_compute; reflexivity.
  - vm_compute; reflexivity.
  - lia.
Defined.

(** X3 on [reopenTrace]. *)
Lemma history_after_calls_witness :
  ∃ σ history,
    runCalls reopenTrace ∅ = Some σ
    ∧ getUsageHistory σ = Some history
    ∧ history = take 20 (recent reopenTrace)
    ∧ (length history ≤ 20)%nat
    ∧ NoDup (pairOf <$> history).
Proof.
  apply (history_after_calls reopenTrace ∅).
  vm_compute; reflexivity.
Defined.

(** X1: unstarring bob on x leaves the usage history key alone. *)
Lemma getProfileHistory_frame_witness :
  (getProfileHistory [appX] noAppInfo someTimeAgo
     (HistoryToolArgs.mk (Some action_unstar) (Some "@bob") (Some "X") None)
     starredStore).2 !! STORAGE_KEYS.USAGE_HISTORY
  = starredStore !! STORAGE_KEYS.USAGE_HISTORY.
Proof.
  apply (getProfileHistory_frame [appX] noAppInfo someTimeAgo
           (HistoryToolArgs.mk (Some action_unstar) (Some "@bob") (Some "X") None)
           starredStore STORAGE_KEYS.USAGE_HISTORY).
  discriminate.
Defined.

(** X4 on [starredStore]: the toggle of bob on x returns [false]. *)
Lemma toggle_returns_new_state_witness :
  isHistoryItemStarred "bob" "x" (setStarredHistoryPairs [] starredStore) = Some false
  ∧ isHistoryItemStarred "bob" "x" starredStore = Some true.
Proof.
  assert (Htoggle : toggleStarredHistoryItem "bob" "x" starredStore
                    = Some (false, setStarredHistoryPairs [] starredStore))
    by (vm_compute; reflexivity).
  split.
  - apply (proj1 (toggle_returns_new_state "bob" "x" starredStore _ false Htoggle)).
  - apply (proj1 (proj2 (toggle_returns_new_state "bob" "x" starredStore _ false Htoggle))).
Defined.

(** X6: "@Bob" on " X" and "bob" on "x". *)
Lemma pair_key_injective_witness :
  getHistoryPairKey "@Bob" " X" = getHistoryPairKey "bob" "x"
  ↔ normalizeApp " X" = normalizeApp "x"
    ∧ normalizeProfile "@Bob" = normalizeProfile "bob".
Proof.
  apply (pair_key_injective "@Bob" "bob" " X" "x"); vm_compute; reflexivity.
Defined.

(** X7 on [customStore]: GitLab is added and removed again. *)
Lemma custom_app_add_remove_witness :
  ∃ σ1 σ2,
    addCustomApp appGitlab customStore = Some σ1
    ∧ getCustomApps σ1 = Some ([appMastodon] ++ [appGitlab])
    ∧ removeCustomApp (App.value appGitlab) σ1 = Some σ2
    ∧ getCustomApps σ2 = Some [appMastodon].
Proof.
  apply (custom_app_add_remove appGitlab customStore [appMastodon]).
  - vm_compute; reflexivity.
  - repeat constructor. discriminate.
Defined.

(** X8 on [customStore3]: Mastodon is removed, both entries of GitLab
    stay. *)
Lemma removeCustomApp_spec_witness :
  ∃ σ',
    removeCustomApp "mastodon" customStore3 = Some σ'
    ∧ getCustomApps σ' = Some [appGitlab; appGitlab]
    ∧ removeCustomApp "mastodon" σ' = Some σ'
    ∧ ∀ key, key ≠ STORAGE_KEYS.CUSTOM_APPS → σ' !! key = customStore3 !! key.
Proof.
  apply (removeCustomApp_spec "mastodon" customStore3 customApps3).
  vm_compute; reflexivity.
Defined.

(** X9 on [store4]: bob on x is removed; both entries of alice stay, and
    so does the entry of "Bob". *)
Lemma removeUsageHistoryItem_spec_witness :
  ∃ σ',
    removeUsageHistoryItem "bob" "x" store4 = Some σ'
    ∧ getUsageHistory σ'
      = Some [item "alice" "github" "GitHub" 9; item "alice" "github" "GitHub" 9;
              item "Bob" "x" "X" 3]
    ∧ (∀ profile' app',
         isHistoryItemStarred profile' app' σ'
         = isHistoryItemStarred profile' app' store4)
    ∧ ∀ key, key ≠ STORAGE_KEYS.USAGE_HISTORY → σ' !! key = store4 !! key.
Proof.
  apply (removeUsageHistoryItem_spec "bob" "x" store4 history4).
  vm_compute; reflexivity.
Defined.

(** X10 on [store2]: carol on x is added and removed again. *)
Lemma add_then_remove_witness :
  ∃ σ1 σ2,
    addToUsageHistory 9 "carol" "x" "X" store2 = Some σ1
    ∧ removeUsageHistoryItem "carol" "x" σ1 = Some σ2
    ∧ getUsageHistory σ2 = Some (take 19 history2)
    ∧ ((length history2 ≤ 19)%nat → getUsageHistory σ2 = Some history2).
Proof.
  apply (add_then_remove 9 "carol" "x" "X" store2 history2).
  - vm_compute; reflexivity.
  - apply (bool_decide_unpack (Forall (otherPair "carol" "x") history2)).
    vm_compute. exact I.
Defined.

(** X11 on [store2]: bob on x is renamed to robert. *)
Lemma updateUsageHistoryItem_spec_witness :
  ∃ σ' history',
    updateUsageHistoryItem 9 "bob" "x" "robert" store2 = Some σ'
    ∧ getUsageHistory σ' = Some history'
    ∧ length history' = length history2
    ∧ (∀ i item, history2 !! i = Some item → otherPair "bob" "x" item →
                 history' !! i = Some item)
    ∧ (∀ i item, history2 !! i = Some item → ¬ otherPair "bob" "x" item →
                 history' !! i
                 = Some (UsageHistoryItem.mk "robert" "x"
                           (UsageHistoryItem.appName item) 9))
    ∧ ("robert" ≠ "bob" → Forall (otherPair "bob" "x") history')
    ∧ ∀ key, key ≠ STORAGE_KEYS.USAGE_HISTORY → σ' !! key = store2 !! key.
Proof.
  apply (updateUsageHistoryItem_spec 9 "bob" "x" "robert" store2 history2).
  vm_compute; reflexivity.
Defined.

(** The rename evaluated: the entry keeps its place and is stamped anew, so
    the history is no longer ordered newest first. *)
Example updateUsageHistoryItem_example :
  (updateUsageHistoryItem 12 "bob" "x" "robert" sortedStore ≫= getUsageHistory)
  = Some [item "carol" "x" "X" 9; item "alice" "github" "GitHub" 7;
          item "robert" "x" "X" 12].
Proof. vm_compute; reflexivity. Qed.

(** X12 on [store2]. *)
Lemma history_pairs_stay_distinct_witness :
  (∃ σ' history', addToUsageHistory 9 "bob" "x" "X" store2 = Some σ'
     ∧ getUsageHistory σ' = Some history' ∧ NoDup (pairOf <$> history'))
  ∧ (∃ σ' history', removeUsageHistoryItem "bob" "x" store2 = Some σ'
       ∧ getUsageHistory σ' = Some history' ∧ NoDup (pairOf <$> history'))
  ∧ ("robert" = "bob" ∨ ("robert", "x") ∉ pairOf <$> history2 →
     ∃ σ' history', updateUsageHistoryItem 9 "bob" "x" "robert" store2 = Some σ'
       ∧ getUsageHistory σ' = Some history' ∧ NoDup (pairOf <$> history')).
Proof.
  apply (history_pairs_stay_distinct 9 store2 history2 "bob" "x" "X" "robert").
  - vm_compute; reflexivity.
  - apply (bool_decide_unpack (NoDup (pairOf <$> history2))). vm_compute. exact I.
Defined.

(** A rename to a pair that is already there leaves the pair twice. *)
Example updateUsageHistoryItem_duplicates :
  (updateUsageHistoryItem 12 "carol" "x" "bob" sortedStore ≫= getUsageHistory)
  = Some [item "bob" "x" "X" 12; item "alice" "github" "GitHub" 7;
          item "bob" "x" "X" 5].
Proof. vm_compute; reflexivity. Qed.

(** X13 on [sortedStore], at time 12. *)
Lemma history_stays_newest_first_witness :
  (∃ σ' history', addToUsageHistory 12 "bob" "x" "X" sortedStore = Some σ'
     ∧ getUsageHistory σ' = Some history' ∧ StronglySorted newestFirst history')
  ∧ (∃ σ' history', removeUsageHistoryItem "bob" "x" sortedStore = Some σ'
       ∧ getUsageHistory σ' = Some history' ∧ StronglySorted newestFirst history').
Proof.
  apply (history_stays_newest_first 12 sortedStore sortedHistory "bob" "x" "X").
  - vm_compute; reflexivity.
  - repeat constructor; unfold newestFirst; simpl; lia.
  - repeat constructor; simpl; lia.
Defined.

(** X14 on [sortedStore], with the limit 1. *)
Lemma starred_query_keeps_stored_order_witness :
  getStarredUsageHistory None (Some 1) sortedStore = Some [item "carol" "x" "X" 9]
  ∧ getStarredUsageHistory None None sortedStore
    = Some [item "carol" "x" "X" 9; item "bob" "x" "X" 5].
Proof.
  apply (starred_query_keeps_stored_order None 1 sortedStore sortedHistory
           ["x::bob"; "x::carol"]).
  - vm_compute; reflexivity.
  - vm_compute; reflexivity.
  - repeat constructor; unfold newestFirst; simpl; lia.
  - lia.
Defined.

(** X24 on [spellingsStore]: starring "bob" on "x" stars "@Bob" too. *)
Lemma star_is_shared_by_key_witness :
  ∃ starredHistory,
    getStarredUsageHistory None None
      (setStarredHistoryPairs ["x::bob"] spellingsStore) = Some starredHistory
    ∧ ∀ item, item ∈ spellingsHistory →
        getHistoryPairKey (UsageHistoryItem.profile item) (UsageHistoryItem.app item)
        = getHistoryPairKey "bob" "x" →
        (item ∈ starredHistory ↔ true = true).
Proof.
  apply (star_is_shared_by_key "bob" "x" spellingsStore _ true spellingsHistory).
  - vm_compute; reflexivity.
  - vm_compute; reflexivity.
Defined.

Example star_is_shared_by_key_example :
  getStarredUsageHistory None None (setStarredHistoryPairs ["x::bob"] spellingsStore)
  = Some spellingsHistory.
Proof. vm_compute; reflexivity. Qed.

(** X15 on [settingsStore]. *)
Lemma getAllApps_hides_only_witness :
  ∃ apps,
    getAllApps [appX] settingsStore = Some apps
    ∧ getAllAppsUnfiltered [appX] settingsStore = Some ([appX] ++ [])
    ∧ apps `sublist_of` [appX] ++ []
    ∧ (Forall (λ setting, AppSetting.visible setting = true) twoSettings →
       apps = [appX] ++ []).
Proof.
  apply (getAllApps_hides_only [appX] settingsStore [] twoSettings).
  - vm_compute; reflexivity.
  - vm_compute; reflexivity.
Defined.

(** X16 on [starredStore] with the default app x: the input " X " names
    it. *)
Lemma resolveAppValue_spec_witness :
  (resolveAppValue [appX] " X " starredStore = Some None
   ↔ Forall (λ app, namesApp " X " app = false) [appX])
  ∧ (∀ value name,
       resolveAppValue [appX] " X " starredStore = Some (Some (value, name)) →
       ∃ before m after,
         [appX] = before ++ m :: after
         ∧ namesApp " X " m = true
         ∧ Forall (λ app, namesApp " X " app = false) before
         ∧ value = App.value m ∧ name = App.name m).
Proof.
  apply (resolveAppValue_spec [appX] " X " starredStore [appX]).
  vm_compute; reflexivity.
Defined.

(** X17 on [customStore]: a custom app with the value x is added, and "x"
    still resolves to the default app. *)
Lemma addCustomApp_keeps_resolution_witness :
  resolveAppValue [appX] "x"
    (Storage.setItem STORAGE_KEYS.CUSTOM_APPS
       (stringify [appMastodon; appOtherX]) customStore)
  = Some (Some ("x", "X")).
Proof.
  apply (addCustomApp_keeps_resolution [appX] appOtherX "x" customStore).
  - vm_compute; reflexivity.
  - vm_compute; reflexivity.
Defined.

(** X18 on [starredStore]: bob on x is unstarred, twice. *)
Lemma star_unstar_toggles_once_witness :
  ∃ σ',
    getProfileHistory [appX] noAppInfo someTimeAgo
      (HistoryToolArgs.mk (Some action_unstar) (Some "@bob") (Some "X") None)
      starredStore
    = ("Unstarred @bob on X.", σ')
    ∧ isHistoryItemStarred "@bob" "x" σ' = Some false
    ∧ (∀ key, key ≠ STORAGE_KEYS.STARRED_HISTORY_ITEMS →
              σ' !! key = starredStore !! key)
    ∧ getProfileHistory [appX] noAppInfo someTimeAgo
        (HistoryToolArgs.mk (Some action_unstar) (Some "@bob") (Some "X") None) σ'
      = ("@bob on X is not currently starred.", σ').
Proof.
  apply (star_unstar_toggles_once [appX] noAppInfo someTimeAgo
           (HistoryToolArgs.mk (Some action_unstar) (Some "@bob") (Some "X") None)
           starredStore "@bob" "X" "x" "X" true).
  - reflexivity.
  - reflexivity.
  - intros _. left. split; vm_compute; reflexivity.
  - reflexivity.
  - reflexivity.
  - vm_compute; reflexivity.
  - vm_compute; reflexivity.
  - reflexivity.
Defined.

(** X19: a "star" with an app and no profile. *)
Lemma star_unstar_needs_both_witness :
  getProfileHistory [appX] noAppInfo someTimeAgo
    (HistoryToolArgs.mk (Some action_star) None (Some "X") None) starredStore
  = ("To star or unstar, provide both profile and app.", starredStore).
Proof.
  apply (star_unstar_needs_both [appX] noAppInfo someTimeAgo
           (HistoryToolArgs.mk (Some action_star) None (Some "X") None) starredStore).
  - left; reflexivity.
  - left; reflexivity.
Defined.

(** X20 on [settingsStore], where the app x is hidden. *)
Lemma star_unstar_unavailable_app_witness :
  getProfileHistory [appX] noAppInfo someTimeAgo
    (HistoryToolArgs.mk (Some action_star) (Some "bob") (Some "x") None) settingsStore
  = ("App " +:+ JsString.dquote +:+ "x" +:+ JsString.dquote +:+ " is not available.",
     settingsStore).
Proof.
  apply (star_unstar_unavailable_app [appX] noAppInfo someTimeAgo
           (HistoryToolArgs.mk (Some action_star) (Some "bob") (Some "x") None)
           settingsStore "bob" "x" []).
  - left; reflexivity.
  - reflexivity.
  - reflexivity.
  - reflexivity.
  - reflexivity.
  - vm_compute; reflexivity.
  - constructor.
Defined.

(** X21 on [starredStore], which holds no history, and on [store2] with
    the filter "mastodon". *)
Lemma list_without_entries_witness :
  getProfileHistory [appX] noAppInfo someTimeAgo
    (HistoryToolArgs.mk None None (Some "x") (Some 3)) starredStore
  = ("No profile history found.", starredStore)
  ∧ getProfileHistory [appX] noAppInfo someTimeAgo
      (HistoryToolArgs.mk None None (Some "mastodon") None) store2
    = ("No profiles were recently opened on " +:+ "mastodon" +:+ ".", store2).
Proof.
  split.
  - apply (list_without_entries [appX] noAppInfo someTimeAgo
             (HistoryToolArgs.mk None None (Some "x") (Some 3)) starredStore []);
      [by left | vm_compute; reflexivity | reflexivity].
  - apply (list_without_entries [appX] noAppInfo someTimeAgo
             (HistoryToolArgs.mk None None (Some "mastodon") None) store2 history2);
      [by left | vm_compute; reflexivity | discriminate | reflexivity | reflexivity |].
    apply (bool_decide_unpack
             (Forall (λ item, ¬ matchesFilter (Some "mastodon") item) history2)).
    vm_compute. exact I.
Defined.

(** X22 on [queryStore], with the limit 2. *)
Lemma list_with_limit_witness :
  ∃ lines,
    Forall2 (λ item line, formatHistoryLine noAppInfo someTimeAgo queryStore item
                          = Some line)
            (take 2 (JsSort.sort byTimestampDesc (filter (matchesFilter None) history3)))
            lines
    ∧ (Z.of_nat (length lines) ≤ 2)
    ∧ (2 = 0 → lines = [])
    ∧ getProfileHistory [] noAppInfo someTimeAgo
        (HistoryToolArgs.mk (Some action_list) None None (Some 2)) queryStore
      = (recentHeader None +:+ JsString.newline +:+ JsString.newline
         +:+ JsString.join JsString.newline lines, queryStore).
Proof.
  apply (list_with_limit [] noAppInfo someTimeAgo
           (HistoryToolArgs.mk (Some action_list) None None (Some 2)) 2
           queryStore history3).
  - right; reflexivity.
  - reflexivity.
  - lia.
  - vm_compute; reflexivity.
  - discriminate.
  - repeat constructor; by eexists.
  - discriminate.
Defined.

(** X23 on [store2], which holds no starred pair. *)
Lemma list_starred_without_stars_witness :
  getProfileHistory [appX] noAppInfo someTimeAgo
    (HistoryToolArgs.mk (Some action_list_starred) None (Some "x") None) store2
  = ("No starred profiles found on " +:+ "x" +:+ ".", store2).
Proof.
  apply (list_starred_without_stars [appX] noAppInfo someTimeAgo
           (HistoryToolArgs.mk (Some action_list_starred) None (Some "x") None)
           store2 history2).
  - reflexivity.
  - vm_compute; reflexivity.
  - vm_compute; reflexivity.
Defined.

(** X25 on [queryStore], with the filter "x" and the limit -1. *)
Lemma starred_query_selects_witness :
  ∃ starredHistory,
    getStarredUsageHistory (Some "x") (Some (-1)) queryStore = Some starredHistory
    ∧ (length starredHistory ≤ length history3)%nat
    ∧ ∀ item, item ∈ starredHistory →
        item ∈ history3 ∧ isStarredItem ["x::bob"; "x::carol"] item
        ∧ matchesFilter (Some "x") item.
Proof.
  apply (starred_query_selects (Some "x") (Some (-1)) queryStore history3
           ["x::bob"; "x::carol"]).
  - vm_compute; reflexivity.
  - vm_compute; reflexivity.
Defined.

(** X26 on [settingsStore]: the two settings are replaced by none, and the
    app x is shown again. *)
Lemma updateAppSettings_takes_effect_witness :
  getAppSettings (updateAppSettings [] settingsStore) = Some []
  ∧ getCustomApps (updateAppSettings [] settingsStore) = Some []
  ∧ getAllApps [appX] (updateAppSettings [] settingsStore)
    = Some (filter (shownApp []) ([appX] ++ []))
  ∧ (@nil AppSetting.t = [] →
     getAllApps [appX] (updateAppSettings [] settingsStore) = Some ([appX] ++ [])).
Proof.
  apply (updateAppSettings_takes_effect [appX] [] settingsStore []).
  vm_compute; reflexivity.
Defined.
